(** * SolCipher_Cronos: the autonomous decision engine

    A shallow embedding of [decision_engine.py] (class [DecisionEngine]) and
    of the risk aggregator that [agent/tests/test_risk_analyzer.py] exercises.

    Python values are embedded as an inductive type, dictionaries as
    insertion-ordered association lists, exceptions as an error monad, and
    the engine object as a record that every method threads explicitly. *)

From Stdlib Require Import List String Ascii Bool ZArith QArith Qround Lia Lqa.
From Stdlib Require Import DecimalString.
Import ListNotations.

Local Open Scope string_scope.
Local Open Scope Z_scope.

(** ** Python values *)

(** A Python [float].  Every finite binary64 value is a rational number and
    Python compares a float with an [int] literal on the exact mathematical
    values, so the finite floats are embedded into [Q]; the three special
    values are kept apart because they compare differently. *)
Inductive pyfloat : Type :=
| Finite (q : Q)
| Inf (negative : bool)
| NaN.

(** The values that can reach the engine: payment identifiers, scores,
    payment data and metadata.  Dictionary keys are strings
    ([Dict[str, Any]] in the source); a dictionary keeps insertion order. *)
#[warnings="-register-all"]
Inductive pyval : Type :=
| VNone
| VBool (b : bool)
| VInt (z : Z)
| VFloat (f : pyfloat)
| VStr (s : string)
| VList (l : list pyval)
| VDict (d : list (string * pyval)).

Definition pydict : Type := list (string * pyval).

(** [type(v).__name__] *)
Definition type_name (v : pyval) : string :=
  match v with
  | VNone => "NoneType"
  | VBool _ => "bool"
  | VInt _ => "int"
  | VFloat _ => "float"
  | VStr _ => "str"
  | VList _ => "list"
  | VDict _ => "dict"
  end.

(** ** Exceptions *)

Inductive pyexc : Type :=
| TypeError (msg : string)
| AttributeError (msg : string)
| KeyError (msg : string).

(** [str(e)] *)
Definition exc_str (e : pyexc) : string :=
  match e with
  | TypeError m => m
  | AttributeError m => m
  | KeyError m => m
  end.

Inductive exc (A : Type) : Type :=
| Ok (a : A)
| Raise (e : pyexc).

Arguments Ok {A} a.
Arguments Raise {A} e.

Definition bind {A B : Type} (m : exc A) (k : A -> exc B) : exc B :=
  match m with
  | Ok a => k a
  | Raise e => Raise e
  end.

Notation "x <- m ;; k" := (bind m (fun x => k))
  (at level 61, m at next level, right associativity).

(** ** Dictionaries *)

Fixpoint dict_lookup (k : string) (d : pydict) : option pyval :=
  match d with
  | [] => None
  | (k', v) :: rest => if String.eqb k k' then Some v else dict_lookup k rest
  end.

(** [d[k] = v]: an existing key keeps its position, a new key goes last. *)
Fixpoint dict_set (k : string) (v : pyval) (d : pydict) : pydict :=
  match d with
  | [] => [(k, v)]
  | (k', v') :: rest =>
      if String.eqb k k' then (k', v) :: rest else (k', v') :: dict_set k v rest
  end.

(** [obj.get(key, default)]; only dictionaries have a [get] attribute. *)
Definition py_get (obj : pyval) (key : string) (default : pyval) : exc pyval :=
  match obj with
  | VDict d =>
      Ok (match dict_lookup key d with Some v => v | None => default end)
  | _ =>
      Raise (AttributeError
               ("'" ++ type_name obj ++ "' object has no attribute 'get'"))
  end.

(** ** Numbers and ordering *)

(** The numeric value of an operand of [<] or [>]; [bool] is a subclass of
    [int].  Everything else is not ordered against an [int]. *)
Definition number_of (v : pyval) : option pyfloat :=
  match v with
  | VBool b => Some (Finite (inject_Z (Z.b2z b)))
  | VInt z => Some (Finite (inject_Z z))
  | VFloat f => Some f
  | _ => None
  end.

Definition float_lt (x y : pyfloat) : bool :=
  match x, y with
  | NaN, _ | _, NaN => false
  | Finite a, Finite b => match Qcompare a b with Lt => true | _ => false end
  | Finite _, Inf neg => negb neg
  | Inf neg, Finite _ => neg
  | Inf n1, Inf n2 => n1 && negb n2
  end.

Definition unorderable (op : string) (v : pyval) : pyexc :=
  TypeError ("'" ++ op ++ "' not supported between instances of '"
                 ++ type_name v ++ "' and 'int'").

(** [v < n] for an integer literal [n] *)
Definition py_lt_int (v : pyval) (n : Z) : exc bool :=
  match number_of v with
  | Some x => Ok (float_lt x (Finite (inject_Z n)))
  | None => Raise (unorderable "<" v)
  end.

(** [v > n] for an integer literal [n] *)
Definition py_gt_int (v : pyval) (n : Z) : exc bool :=
  match number_of v with
  | Some x => Ok (float_lt (Finite (inject_Z n)) x)
  | None => Raise (unorderable ">" v)
  end.

(** The mathematical position of a float against a bound, stated without
    the comparison code: minus infinity is below and plus infinity above
    every bound, and NaN is neither. *)
Definition below (f : pyfloat) (b : Q) : Prop :=
  match f with
  | Finite q => (q < b)%Q
  | Inf negative => negative = true
  | NaN => False
  end.

Definition at_least (f : pyfloat) (b : Q) : Prop :=
  match f with
  | Finite q => (b <= q)%Q
  | Inf negative => negative = false
  | NaN => False
  end.

Definition above (f : pyfloat) (b : Q) : Prop :=
  match f with
  | Finite q => (b < q)%Q
  | Inf negative => negative = false
  | NaN => False
  end.

(** ** Strings *)

(** Strings are sequences of code points below 256 (Latin-1). *)

Definition squote : ascii := "'"%char.
Definition dquote : ascii := ascii_of_N 34.
Definition backslash : ascii := ascii_of_N 92.

Definition in_range (lo hi n : N) : bool := (lo <=? n)%N && (n <=? hi)%N.

(** One character of [str.lower()] *)
Definition lower_char (c : ascii) : ascii :=
  let n := N_of_ascii c in
  if in_range 65 90 n
     || (in_range 192 222 n && negb (n =? 215)%N)
  then ascii_of_N (n + 32)
  else c.

(** [s.lower()] *)
Fixpoint lower (s : string) : string :=
  match s with
  | EmptyString => EmptyString
  | String c rest => String (lower_char c) (lower rest)
  end.

(** [needle in hay] on strings: substring containment *)
Fixpoint str_contains (needle hay : string) : bool :=
  prefix needle hay
  || match hay with
     | EmptyString => false
     | String _ rest => str_contains needle rest
     end.

(** [needle] occurs somewhere inside [hay]. *)
Definition occurs_in (needle hay : string) : Prop :=
  exists before after, hay = before ++ needle ++ after.

(** An ASCII letter. *)
Definition is_letter (c : ascii) : bool :=
  let n := N_of_ascii c in in_range 65 90 n || in_range 97 122 n.

Fixpoint all_letters (s : string) : bool :=
  match s with
  | EmptyString => true
  | String c rest => is_letter c && all_letters rest
  end.

Definition hex_digit (n : N) : ascii :=
  if (n <? 10)%N then ascii_of_N (48 + n) else ascii_of_N (87 + n).

(** Characters that [repr] writes as an escape [\xNN]: the control
    characters, DEL, the C1 controls, the no-break space and the soft
    hyphen. *)
Definition unprintable (n : N) : bool :=
  (n <? 32)%N || (n =? 127)%N || in_range 128 160 n || (n =? 173)%N.

Definition repr_char (quote : ascii) (c : ascii) : string :=
  let n := N_of_ascii c in
  if Ascii.eqb c quote || Ascii.eqb c backslash
  then String backslash (String c EmptyString)
  else if (n =? 9)%N then String backslash "t"
  else if (n =? 10)%N then String backslash "n"
  else if (n =? 13)%N then String backslash "r"
  else if unprintable n then
    String backslash
      (String "x" (String (hex_digit (n / 16))
                          (String (hex_digit (n mod 16)) EmptyString)))
  else String c EmptyString.

Fixpoint repr_chars (quote : ascii) (s : string) : string :=
  match s with
  | EmptyString => EmptyString
  | String c rest => repr_char quote c ++ repr_chars quote rest
  end.

Definition has_char (c : ascii) (s : string) : bool :=
  str_contains (String c EmptyString) s.

(** [repr(s)] for a string: single quotes unless the string holds a single
    quote and no double quote. *)
Definition repr_str (s : string) : string :=
  let quote : ascii :=
    if has_char squote s && negb (has_char dquote s) then dquote else squote in
  String quote (repr_chars quote s ++ String quote EmptyString).

(** [sep.join(parts)] *)
Fixpoint join (sep : string) (parts : list string) : string :=
  match parts with
  | [] => EmptyString
  | [p] => p
  | p :: rest => p ++ sep ++ join sep rest
  end.

(** [repr(z)] for an [int] *)
Definition repr_int (z : Z) : string := NilZero.string_of_int (Z.to_int z).

(** [repr(f)] on the floats used in the examples: exact for the special
    values and for the floats that hold a whole number below 10^16. *)
Definition repr_float_whole (f : pyfloat) : string :=
  match f with
  | Finite q => repr_int (Qfloor q) ++ ".0"
  | Inf true => "-inf"
  | Inf false => "inf"
  | NaN => "nan"
  end.

(** ** The risk aggregator *)

(** The six keys of a FactorVector and of RiskWeights. *)
Inductive factor : Type :=
| amount_anomaly
| velocity
| address_reputation
| pattern_matching
| time_based
| metadata_analysis.

Definition factors : list factor :=
  [amount_anomaly; velocity; address_reputation;
   pattern_matching; time_based; metadata_analysis].

Definition factor_eqb (a b : factor) : bool :=
  match a, b with
  | amount_anomaly, amount_anomaly
  | velocity, velocity
  | address_reputation, address_reputation
  | pattern_matching, pattern_matching
  | time_based, time_based
  | metadata_analysis, metadata_analysis => true
  | _, _ => false
  end.

(** A mapping with exactly the six keys, to real numbers. *)
Definition FactorVector : Type := factor -> Q.
Definition RiskWeights : Type := factor -> Q.

(** [fv[k] = x], the other five entries held fixed *)
Definition with_factor (k : factor) (x : Q) (fv : FactorVector) : FactorVector :=
  fun k' => if factor_eqb k k' then x else fv k'.

Definition weighted_sum (w : RiskWeights) (fv : FactorVector) : Q :=
  fold_right (fun k acc => (w k * fv k + acc)%Q) 0%Q factors.

Definition total_weight (w : RiskWeights) : Q :=
  fold_right (fun k acc => (w k + acc)%Q) 0%Q factors.

Definition in_unit_interval (x : Q) : bool :=
  Qle_bool 0 x && Qle_bool x 1.

(** Modelled from the spec: [RiskAnalyzer.calculate_risk_score] is not among
    the sources (only its test is).  Section 4.3 of the specification: the
    aggregator validates that every factor lies in [0,1] (an out-of-range
    factor fails, here [None]), computes the weighted sum of the six factors
    with the RiskWeights, treats the weights as a convex combination
    (divides by their total) and rescales to the range 0 to 100. *)
Definition calculate_risk_score (w : RiskWeights) (fv : FactorVector) : option Q :=
  if forallb (fun k => in_unit_interval (fv k)) factors
  then Some (100 * (weighted_sum w fv / total_weight w))%Q
  else None.

(** ** The decision engine *)

(** The fields of a [DecisionEngine] object that the decision logic can
    see.  The Web3 connection, the signing account and the contract handle
    are external collaborators and are left out. *)
Record DecisionEngine : Type := mkEngine {
  config : pydict;
  risk_threshold : pyval;
  contract_address : pyval;
  pending_decisions : list pydict
}.

(** [config[key]] *)
Definition py_index (d : pydict) (key : string) : exc pyval :=
  match dict_lookup key d with
  | Some v => Ok v
  | None => Raise (KeyError (repr_str key))
  end.

Definition dict_get (d : pydict) (key : string) (default : pyval) : pyval :=
  match dict_lookup key d with Some v => v | None => default end.

(** [DecisionEngine.__init__]: the provider and the account are built from
    two mandatory configuration entries; building them is assumed to
    succeed once the entries exist. *)
Definition __init__ (cfg : pydict) : exc DecisionEngine :=
  let threshold := dict_get cfg "risk_threshold" (VFloat (Finite (3 # 4))) in
  _ <- py_index cfg "cronos_rpc_url" ;;
  _ <- py_index cfg "private_key" ;;
  Ok {| config := cfg;
        risk_threshold := threshold;
        contract_address := dict_get cfg "contract_address" VNone;
        pending_decisions := [] |}.

(** [self.pending_decisions.append(decision)] *)
Definition append_pending (decision : pydict) (self : DecisionEngine) : DecisionEngine :=
  {| config := config self;
     risk_threshold := risk_threshold self;
     contract_address := contract_address self;
     pending_decisions := pending_decisions self ++ [decision] |}.

(** [self.pending_decisions.clear()] *)
Definition clear_pending (self : DecisionEngine) : DecisionEngine :=
  {| config := config self;
     risk_threshold := risk_threshold self;
     contract_address := contract_address self;
     pending_decisions := [] |}.

(** [get_pending_decisions]: the copy is a fresh list, so clearing the
    queue afterwards does not touch what is returned. *)
Definition get_pending_decisions (self : DecisionEngine)
  : list pydict * DecisionEngine :=
  let decisions := pending_decisions self in
  (decisions, clear_pending self).

Definition suspicious_keywords : list string :=
  ["exploit"; "hack"; "drain"; "rug"].

(** The loop over the keywords, returning at the first hit. *)
Fixpoint any_keyword_in (keywords : list string) (metadata_str : string) : bool :=
  match keywords with
  | [] => false
  | keyword :: rest =>
      if str_contains keyword metadata_str then true
      else any_keyword_in rest metadata_str
  end.

(** [decision['action'] = action; decision['reason'] = reason] *)
Definition set_action (action reason : string) (decision : pydict) : pydict :=
  dict_set "reason" (VStr reason) (dict_set "action" (VStr action) decision).

(** [DecisionEngine.get_contract_address] *)
Definition get_contract_address (self : DecisionEngine) : pyval :=
  contract_address self.

(** The record after the ladder has set the action and the reason on the
    five keys [make_decision] starts from. *)
Definition ladder_record (payment_id risk_score timestamp : pyval)
    (action reason : string) : pydict :=
  [("payment_id", payment_id); ("risk_score", risk_score);
   ("timestamp", timestamp);
   ("action", VStr action); ("reason", VStr reason)].

(** The action and reason pairs that the ladder and the override assign. *)
Definition decision_table : list (string * string) :=
  [("approve", "Very low risk transaction");
   ("approve", "Low risk transaction");
   ("verify_zk_proof", "Medium risk - additional verification required");
   ("enhance_privacy", "High risk - enhanced privacy measures applied");
   ("flag", "Very high risk - flagged for manual review");
   ("flag", "Critical risk pattern detected")].

(** The four actions in the order of the ladder, least severe first; a
    record without an action counts as most severe. *)
Definition severity (action : option pyval) : nat :=
  match action with
  | Some (VStr a) =>
      if String.eqb a "approve" then 0%nat
      else if String.eqb a "verify_zk_proof" then 1%nat
      else if String.eqb a "enhance_privacy" then 2%nat
      else 3%nat
  | _ => 3%nat
  end.

(** The four actions a decision can carry. *)
Definition actions : list string :=
  ["approve"; "verify_zk_proof"; "enhance_privacy"; "flag"].

(** A record with all five keys of a decision made by the ladder, its
    action one of the four and its reason a string. *)
Definition complete_record (decision : pydict) : Prop :=
  exists (payment_id risk_score timestamp : pyval) (action reason : string),
    dict_lookup "payment_id" decision = Some payment_id
    /\ dict_lookup "risk_score" decision = Some risk_score
    /\ dict_lookup "timestamp" decision = Some timestamp
    /\ dict_lookup "action" decision = Some (VStr action)
    /\ In action actions
    /\ dict_lookup "reason" decision = Some (VStr reason).

(** A character that [repr] copies unchanged whatever the quote: printable
    ASCII other than the two quotes and the backslash. *)
Definition is_plain (c : ascii) : bool :=
  let n := N_of_ascii c in
  in_range 32 126 n
  && negb (Ascii.eqb c squote) && negb (Ascii.eqb c dquote)
  && negb (Ascii.eqb c backslash).

Fixpoint all_plain (s : string) : bool :=
  match s with
  | EmptyString => true
  | String c rest => is_plain c && all_plain rest
  end.

(** A metadata mapping whose values are all strings. *)
Definition flat_metadata (entries : list (string * string)) : pyval :=
  VDict (map (fun '(k, v) => (k, VStr v)) entries).

(** ** Sample inputs *)

Definition sample_config : pydict :=
  [("cronos_rpc_url", VStr "https://evm.cronos.org");
   ("private_key", VStr "0x01");
   ("risk_threshold", VFloat (Finite (3 # 4)))].

Definition sample_engine : DecisionEngine :=
  {| config := sample_config;
     risk_threshold := VFloat (Finite (3 # 4));
     contract_address := VNone;
     pending_decisions := [] |}.

Definition invoice_payment : pydict :=
  [("sender", VStr "0x1234567890123456789012345678901234567890");
   ("amount", VFloat (Finite 100));
   ("metadata", VDict [("purpose", VStr "invoice payment");
                       ("invoice_id", VStr "12345")]);
   ("timestamp", VStr "2024-01-01T14:00:00")].

Definition large_payment : pydict :=
  [("amount", VInt 250000);
   ("metadata", VDict [("purpose", VStr "payment")]);
   ("timestamp", VStr "2024-01-01T03:00:00")].

Definition suspicious_payment : pydict :=
  [("amount", VInt 5);
   ("metadata", VDict [("purpose", VStr "Hackathon prize")])].

Definition sample_weights : RiskWeights :=
  fun k =>
    match k with
    | amount_anomaly => 1 # 4
    | velocity => 1 # 5
    | address_reputation => 1 # 5
    | pattern_matching => 3 # 20
    | time_based => 1 # 10
    | metadata_analysis => 1 # 10
    end.

Section Engine.

(** [repr] of a float is the runtime's shortest round-trip decimal; the
    engine only ever searches it for keywords, so it stays a parameter. *)
Variable repr_float : pyfloat -> string.

(** [repr(v)] *)
Fixpoint py_repr (v : pyval) : string :=
  match v with
  | VNone => "None"
  | VBool true => "True"
  | VBool false => "False"
  | VInt z => repr_int z
  | VFloat f => repr_float f
  | VStr s => repr_str s
  | VList l => "[" ++ join ", " (map py_repr l) ++ "]"
  | VDict d =>
      "{" ++ join ", " (map (fun '(k, x) => repr_str k ++ ": " ++ py_repr x) d)
          ++ "}"
  end.

(** [str(v)] *)
Definition py_str (v : pyval) : string :=
  match v with
  | VStr s => s
  | _ => py_repr v
  end.

(** [DecisionEngine._check_critical_patterns]; the method does not read
    [self]. *)
Definition _check_critical_patterns (payment_data : pyval) : exc bool :=
  amount <- py_get payment_data "amount" (VInt 0) ;;
  large <- py_gt_int amount 100000 ;;
  if large then Ok true
  else
    metadata <- py_get payment_data "metadata" (VDict []) ;;
    let metadata_str := lower (py_str metadata) in
    Ok (any_keyword_in suspicious_keywords metadata_str).

(** The body of the [try] block of [make_decision]. *)
Definition make_decision_try (self : DecisionEngine)
    (payment_id risk_score payment_data : pyval)
  : exc (pydict * DecisionEngine) :=
  timestamp <- py_get payment_data "timestamp" VNone ;;
  let decision : pydict :=
    [("payment_id", payment_id); ("risk_score", risk_score);
     ("timestamp", timestamp); ("action", VNone); ("reason", VNone)] in
  decision <-
    (lt20 <- py_lt_int risk_score 20 ;;
     if lt20 then
       Ok (set_action "approve" "Very low risk transaction" decision)
     else
     lt40 <- py_lt_int risk_score 40 ;;
     if lt40 then
       Ok (set_action "approve" "Low risk transaction" decision)
     else
     lt60 <- py_lt_int risk_score 60 ;;
     if lt60 then
       Ok (set_action "verify_zk_proof"
             "Medium risk - additional verification required" decision)
     else
     lt80 <- py_lt_int risk_score 80 ;;
     if lt80 then
       Ok (dict_set "privacy_level" (VStr "high")
             (set_action "enhance_privacy"
                "High risk - enhanced privacy measures applied" decision))
     else
       Ok (set_action "flag"
             "Very high risk - flagged for manual review" decision)) ;;
  critical <- _check_critical_patterns payment_data ;;
  let decision :=
    if critical then set_action "flag" "Critical risk pattern detected" decision
    else decision in
  Ok (decision, append_pending decision self).

(** The record returned by the [except] branch. *)
Definition error_decision (payment_id : pyval) (e : pyexc) : pydict :=
  [("payment_id", payment_id);
   ("action", VStr "flag");
   ("reason", VStr ("Error in decision making: " ++ exc_str e))].

(** [DecisionEngine.make_decision]: the returned record and the engine
    afterwards. *)
Definition make_decision (self : DecisionEngine)
    (payment_id risk_score payment_data : pyval)
  : pydict * DecisionEngine :=
  match make_decision_try self payment_id risk_score payment_data with
  | Ok r => r
  | Raise e => (error_decision payment_id e, self)
  end.

(** The lowercased string form of the metadata holds a suspicious keyword. *)
Definition mentions_keyword (metadata : pyval) : Prop :=
  exists keyword,
    In keyword suspicious_keywords
    /\ occurs_in keyword (lower (py_str metadata)).

(** The amount entry the critical check reads: absent means [0]. *)
Definition amount_of (m : pydict) : pyval := dict_get m "amount" (VInt 0).

(** The metadata entry the critical check reads: absent means [{}]. *)
Definition metadata_of (m : pydict) : pyval := dict_get m "metadata" (VDict []).

(** [decision['action']] of a returned record *)
Definition action_of (decision : pydict) : option pyval :=
  dict_lookup "action" decision.

(** [decision['reason']] of a returned record *)
Definition reason_of (decision : pydict) : option pyval :=
  dict_lookup "reason" decision.

(** A run of [make_decision] calls, one per request (payment id, score,
    payment data), on the same engine: the records returned, in call order,
    and the engine at the end. *)
Fixpoint decide_all (self : DecisionEngine)
    (requests : list (pyval * pyval * pyval))
  : list pydict * DecisionEngine :=
  match requests with
  | [] => ([], self)
  | (payment_id, risk_score, payment_data) :: rest =>
      let (decision, self1) :=
        make_decision self payment_id risk_score payment_data in
      let (decisions, self2) := decide_all self1 rest in
      (decision :: decisions, self2)
  end.

(** The records of the requests whose [try] block completes. *)
Definition completed_records (self : DecisionEngine)
    (requests : list (pyval * pyval * pyval)) : list pydict :=
  flat_map
    (fun '(payment_id, risk_score, payment_data) =>
       match make_decision_try self payment_id risk_score payment_data with
       | Ok (decision, _) => [decision]
       | Raise _ => []
       end)
    requests.

(** ** Ordering lemmas *)

Lemma float_lt_below (f : pyfloat) (n : Z) :
  below f (inject_Z n) -> float_lt f (Finite (inject_Z n)) = true.
Proof.
  destruct f as [q | neg | ]; cbn [float_lt below at_least above]; intros H.
  - now rewrite (proj1 (Qlt_alt _ _) H).
  - exact H.
  - contradiction.
Qed.

Lemma float_lt_at_least (f : pyfloat) (n : Z) :
  at_least f (inject_Z n) -> float_lt f (Finite (inject_Z n)) = false.
Proof.
  destruct f as [q | neg | ]; cbn [float_lt below at_least above]; intros H.
  - destruct (Qcompare q (inject_Z n)) eqn:E; try reflexivity.
    exfalso. apply (Qlt_not_le _ _ (proj2 (Qlt_alt _ _) E) H).
  - exact H.
  - reflexivity.
Qed.

Lemma float_gt_above (f : pyfloat) (n : Z) :
  above f (inject_Z n) -> float_lt (Finite (inject_Z n)) f = true.
Proof.
  destruct f as [q | neg | ]; cbn [float_lt below at_least above]; intros H.
  - now rewrite (proj1 (Qlt_alt _ _) H).
  - now rewrite H.
  - contradiction.
Qed.

Lemma float_gt_iff (f : pyfloat) (n : Z) :
  float_lt (Finite (inject_Z n)) f = true <-> above f (inject_Z n).
Proof.
  split; [ | apply float_gt_above ].
  destruct f as [q | neg | ]; cbn [float_lt above].
  - destruct (Qcompare (inject_Z n) q) eqn:E; try discriminate.
    intros _. exact (proj2 (Qlt_alt _ _) E).
  - now destruct neg.
  - discriminate.
Qed.

Lemma at_least_weaken (f : pyfloat) (a b : Q) :
  (a <= b)%Q -> at_least f b -> at_least f a.
Proof.
  destruct f as [q | neg | ]; cbn [at_least]; intros Hab H; try assumption.
  now apply Qle_trans with b.
Qed.

Lemma py_lt_int_below (v : pyval) (f : pyfloat) (n : Z) :
  number_of v = Some f -> below f (inject_Z n) -> py_lt_int v n = Ok true.
Proof.
  intros Hv H. unfold py_lt_int. rewrite Hv. now rewrite float_lt_below.
Qed.

Lemma py_lt_int_at_least (v : pyval) (f : pyfloat) (n : Z) :
  number_of v = Some f -> at_least f (inject_Z n) -> py_lt_int v n = Ok false.
Proof.
  intros Hv H. unfold py_lt_int. rewrite Hv. now rewrite float_lt_at_least.
Qed.

Lemma py_lt_int_number (v : pyval) (f : pyfloat) (n : Z) :
  number_of v = Some f -> exists b, py_lt_int v n = Ok b.
Proof.
  intros Hv. unfold py_lt_int. rewrite Hv. eauto.
Qed.

(** ** Dictionary lemmas *)

Lemma dict_lookup_set_same (k : string) (v : pyval) (d : pydict) :
  dict_lookup k (dict_set k v d) = Some v.
Proof.
  induction d as [ | [k' v'] rest IH]; simpl.
  - now rewrite String.eqb_refl.
  - destruct (String.eqb k k') eqn:E; simpl; rewrite E; auto.
Qed.

Lemma dict_lookup_set_other (k k0 : string) (v : pyval) (d : pydict) :
  k0 <> k -> dict_lookup k0 (dict_set k v d) = dict_lookup k0 d.
Proof.
  intros Hne.
  induction d as [ | [k' v'] rest IH]; simpl.
  - destruct (String.eqb k0 k) eqn:E; [ | reflexivity ].
    apply String.eqb_eq in E. contradiction.
  - destruct (String.eqb k k') eqn:E; simpl.
    + apply String.eqb_eq in E. subst k'.
      destruct (String.eqb k0 k) eqn:E0; [ | reflexivity ].
      apply String.eqb_eq in E0. contradiction.
    + now rewrite IH.
Qed.

Lemma action_of_set_action (a r : string) (d : pydict) :
  action_of (set_action a r d) = Some (VStr a).
Proof.
  unfold action_of, set_action.
  rewrite dict_lookup_set_other by discriminate.
  apply dict_lookup_set_same.
Qed.

Lemma reason_of_set_action (a r : string) (d : pydict) :
  reason_of (set_action a r d) = Some (VStr r).
Proof.
  unfold reason_of, set_action. apply dict_lookup_set_same.
Qed.

Lemma lookup_set_action_other (k a r : string) (d : pydict) :
  k <> "action" -> k <> "reason" ->
  dict_lookup k (set_action a r d) = dict_lookup k d.
Proof.
  intros Ha Hr. unfold set_action.
  now rewrite !dict_lookup_set_other.
Qed.

(** ** Substring containment *)

Lemma prefix_iff (needle hay : string) :
  prefix needle hay = true <-> exists after, hay = needle ++ after.
Proof.
  revert hay.
  induction needle as [ | a needle IH]; intros hay.
  - split; [ intros _; exists hay; reflexivity | intros _; now destruct hay ].
  - destruct hay as [ | b hay]; simpl.
    + split; [ discriminate | intros [after H]; discriminate ].
    + destruct (ascii_dec a b) as [-> | Hne].
      * rewrite IH. split; intros [after H]; exists after.
        -- now rewrite H.
        -- now inversion H.
      * split; [ discriminate | ].
        intros [after H]. injection H as Hab _. congruence.
Qed.

Lemma str_contains_iff (needle hay : string) :
  str_contains needle hay = true <-> occurs_in needle hay.
Proof.
  unfold occurs_in. split.
  - induction hay as [ | c hay IH]; cbn [str_contains]; intros H;
      apply orb_true_iff in H; destruct H as [H | H].
    + apply prefix_iff in H. destruct H as [after H].
      exists EmptyString, after. exact H.
    + discriminate.
    + apply prefix_iff in H. destruct H as [after H].
      exists EmptyString, after. exact H.
    + destruct (IH H) as [before [after E]].
      exists (String c before), after. simpl. now rewrite E.
  - intros [before [after E]]. subst hay.
    induction before as [ | c before IH].
    + assert (P : prefix needle (needle ++ after) = true)
        by (apply prefix_iff; eauto).
      change (EmptyString ++ needle ++ after) with (needle ++ after).
      destruct (needle ++ after); cbn [str_contains]; now rewrite P.
    + change (String c before ++ needle ++ after)
        with (String c (before ++ needle ++ after)).
      cbn [str_contains]. rewrite IH. apply orb_true_r.
Qed.

Lemma any_keyword_in_iff (keywords : list string) (s : string) :
  any_keyword_in keywords s = true
  <-> exists keyword, In keyword keywords /\ occurs_in keyword s.
Proof.
  induction keywords as [ | k rest IH]; simpl.
  - split; [ discriminate | intros [? [[] _]] ].
  - destruct (str_contains k s) eqn:E.
    + split; [ intros _ | reflexivity ].
      exists k. split; [ now left | now apply str_contains_iff ].
    + rewrite IH. split.
      * intros [kw [Hin Hocc]]. exists kw. split; [ now right | exact Hocc ].
      * intros [kw [[-> | Hin] Hocc]].
        -- apply str_contains_iff in Hocc. congruence.
        -- exists kw. now split.
Qed.

(** ** The critical check *)

(** On a dictionary with a numeric (or absent) amount the check does not
    raise, and it answers [True] exactly on a large amount or a keyword. *)
Lemma check_critical_patterns_dict (m : pydict) (a : pyfloat) :
  number_of (amount_of m) = Some a ->
  _check_critical_patterns (VDict m)
  = Ok (float_lt (Finite (inject_Z 100000)) a
        || any_keyword_in suspicious_keywords (lower (py_str (metadata_of m)))).
Proof.
  intros Ha. unfold _check_critical_patterns, py_gt_int.
  cbn [py_get bind]. fold (dict_get m "amount" (VInt 0)). fold (amount_of m).
  rewrite Ha. cbn [bind].
  destruct (float_lt (Finite (inject_Z 100000)) a); reflexivity.
Qed.

Lemma check_critical_patterns_true_iff (m : pydict) (a : pyfloat) :
  number_of (amount_of m) = Some a ->
  _check_critical_patterns (VDict m) = Ok true
  <-> above a 100000 \/ mentions_keyword (metadata_of m).
Proof.
  intros Ha. rewrite (check_critical_patterns_dict m a Ha).
  unfold mentions_keyword. rewrite <- any_keyword_in_iff.
  change 100000%Q with (inject_Z 100000). rewrite <- float_gt_iff.
  split.
  - intros H. injection H as H. now apply orb_true_iff in H.
  - intros H. apply orb_true_iff in H. now rewrite H.
Qed.

Ltac run_decision :=
  unfold make_decision, make_decision_try;
  cbn [py_get bind];
  repeat match goal with
    | H : py_lt_int ?v ?n = _ |- context [py_lt_int ?v ?n] =>
        rewrite H; cbn [bind]
    | H : _check_critical_patterns ?pd = _
      |- context [_check_critical_patterns ?pd] =>
        rewrite H; cbn [bind]
    end.

(** C1: for a risk score in [0,100] and payment data that triggers no
    critical override, [make_decision] follows the fixed threshold ladder:
    [0,20) and [20,40) approve, [40,60) asks for the ZK proof, [60,80)
    enhances privacy and sets privacy_level to high, [80,100] flags; the
    record carries the given payment id, the given score, the payment
    data's timestamp and a reason string. *)
Theorem make_decision_threshold_ladder
    (self : DecisionEngine) (payment_id risk_score : pyval)
    (m : pydict) (x : Q) :
  number_of risk_score = Some (Finite x) ->
  (0 <= x <= 100)%Q ->
  _check_critical_patterns (VDict m) = Ok false ->
  let decision := fst (make_decision self payment_id risk_score (VDict m)) in
  let record (action reason : string) : pydict :=
    [("payment_id", payment_id); ("risk_score", risk_score);
     ("timestamp", dict_get m "timestamp" VNone);
     ("action", VStr action); ("reason", VStr reason)] in
  ((x < 20)%Q ->
   decision = record "approve" "Very low risk transaction")
  /\ ((20 <= x < 40)%Q ->
      decision = record "approve" "Low risk transaction")
  /\ ((40 <= x < 60)%Q ->
      decision = record "verify_zk_proof"
                   "Medium risk - additional verification required")
  /\ ((60 <= x < 80)%Q ->
      decision = (record "enhance_privacy"
                    "High risk - enhanced privacy measures applied"
                  ++ [("privacy_level", VStr "high")])%list)
  /\ ((80 <= x)%Q ->
      decision = record "flag" "Very high risk - flagged for manual review").
Proof.
  intros Hnum Hrange Hcheck decision record. subst decision record.
  repeat split.
  - intros H.
    pose proof (py_lt_int_below _ _ 20 Hnum H) as H20.
    run_decision. reflexivity.
  - intros [Hlo Hhi].
    pose proof (py_lt_int_at_least _ _ 20 Hnum Hlo) as H20.
    pose proof (py_lt_int_below _ _ 40 Hnum Hhi) as H40.
    run_decision. reflexivity.
  - intros [Hlo Hhi].
    assert (H20 : py_lt_int risk_score 20 = Ok false)
      by (apply (py_lt_int_at_least _ _ 20 Hnum); cbn [at_least]; unfold inject_Z; lra).
    pose proof (py_lt_int_at_least _ _ 40 Hnum Hlo) as H40.
    pose proof (py_lt_int_below _ _ 60 Hnum Hhi) as H60.
    run_decision. reflexivity.
  - intros [Hlo Hhi].
    assert (H20 : py_lt_int risk_score 20 = Ok false)
      by (apply (py_lt_int_at_least _ _ 20 Hnum); cbn [at_least]; unfold inject_Z; lra).
    assert (H40 : py_lt_int risk_score 40 = Ok false)
      by (apply (py_lt_int_at_least _ _ 40 Hnum); cbn [at_least]; unfold inject_Z; lra).
    pose proof (py_lt_int_at_least _ _ 60 Hnum Hlo) as H60.
    pose proof (py_lt_int_below _ _ 80 Hnum Hhi) as H80.
    run_decision. reflexivity.
  - intros Hlo.
    assert (H20 : py_lt_int risk_score 20 = Ok false)
      by (apply (py_lt_int_at_least _ _ 20 Hnum); cbn [at_least]; unfold inject_Z; lra).
    assert (H40 : py_lt_int risk_score 40 = Ok false)
      by (apply (py_lt_int_at_least _ _ 40 Hnum); cbn [at_least]; unfold inject_Z; lra).
    assert (H60 : py_lt_int risk_score 60 = Ok false)
      by (apply (py_lt_int_at_least _ _ 60 Hnum); cbn [at_least]; unfold inject_Z; lra).
    pose proof (py_lt_int_at_least _ _ 80 Hnum Hlo) as H80.
    run_decision. reflexivity.
Qed.


(** The record the [except] branch returns always flags. *)
Lemma action_of_error_decision (payment_id : pyval) (e : pyexc) :
  action_of (error_decision payment_id e) = Some (VStr "flag").
Proof. reflexivity. Qed.

(** C9: the ladder does not validate the range of the score.  Every score
    below 20, the negative ones and minus infinity included, is approved
    when no critical override fires; every score of 80 or more, the ones
    above 100 and plus infinity included, is flagged, whatever the payment
    data. *)
Theorem make_decision_no_range_validation
    (self : DecisionEngine) (payment_id risk_score : pyval) (f : pyfloat) :
  number_of risk_score = Some f ->
  (forall m : pydict,
      below f 20 ->
      _check_critical_patterns (VDict m) = Ok false ->
      action_of (fst (make_decision self payment_id risk_score (VDict m)))
      = Some (VStr "approve"))
  /\ (forall payment_data : pyval,
         at_least f 80 ->
         action_of (fst (make_decision self payment_id risk_score payment_data))
         = Some (VStr "flag")).
Proof.
  intros Hnum. split.
  - intros m Hlow Hcheck.
    pose proof (py_lt_int_below _ _ 20 Hnum Hlow) as H20.
    run_decision. reflexivity.
  - intros payment_data Hhigh.
    assert (H80 : py_lt_int risk_score 80 = Ok false)
      by exact (py_lt_int_at_least _ _ 80 Hnum Hhigh).
    assert (H60 : py_lt_int risk_score 60 = Ok false).
    { apply (py_lt_int_at_least _ _ 60 Hnum).
      apply at_least_weaken with 80%Q; [ unfold inject_Z; lra | exact Hhigh ]. }
    assert (H40 : py_lt_int risk_score 40 = Ok false).
    { apply (py_lt_int_at_least _ _ 40 Hnum).
      apply at_least_weaken with 80%Q; [ unfold inject_Z; lra | exact Hhigh ]. }
    assert (H20 : py_lt_int risk_score 20 = Ok false).
    { apply (py_lt_int_at_least _ _ 20 Hnum).
      apply at_least_weaken with 80%Q; [ unfold inject_Z; lra | exact Hhigh ]. }
    destruct payment_data as [ | b | z | g | s | l | m ];
      try (run_decision; reflexivity).
    destruct (_check_critical_patterns (VDict m)) as [[ | ] | e] eqn:Hcheck;
      run_decision; reflexivity.
Qed.

(** C8: with a score in [60,80) and a critical pattern, the override
    rewrites the action and the reason only: the flagged record keeps
    privacy_level high and the payment id, score and timestamp the ladder
    put there. *)
Theorem critical_override_keeps_privacy_level
    (self : DecisionEngine) (payment_id risk_score : pyval)
    (m : pydict) (x : Q) :
  number_of risk_score = Some (Finite x) ->
  (60 <= x < 80)%Q ->
  _check_critical_patterns (VDict m) = Ok true ->
  fst (make_decision self payment_id risk_score (VDict m))
  = [("payment_id", payment_id); ("risk_score", risk_score);
     ("timestamp", dict_get m "timestamp" VNone);
     ("action", VStr "flag");
     ("reason", VStr "Critical risk pattern detected");
     ("privacy_level", VStr "high")].
Proof.
  intros Hnum [Hlo Hhi] Hcheck.
  assert (H20 : py_lt_int risk_score 20 = Ok false)
    by (apply (py_lt_int_at_least _ _ 20 Hnum); cbn [at_least]; unfold inject_Z; lra).
  assert (H40 : py_lt_int risk_score 40 = Ok false)
    by (apply (py_lt_int_at_least _ _ 40 Hnum); cbn [at_least]; unfold inject_Z; lra).
  pose proof (py_lt_int_at_least _ _ 60 Hnum Hlo) as H60.
  pose proof (py_lt_int_below _ _ 80 Hnum Hhi) as H80.
  run_decision. reflexivity.
Qed.

(** With a numeric score and a dictionary, the [try] block gets as far as
    the critical check: whatever the check answers decides the record. *)
Lemma make_decision_try_numeric
    (self : DecisionEngine) (payment_id risk_score : pyval)
    (m : pydict) (f : pyfloat) :
  number_of risk_score = Some f ->
  exists ladder : pydict,
    dict_lookup "payment_id" ladder = Some payment_id
    /\ dict_lookup "risk_score" ladder = Some risk_score
    /\ dict_lookup "timestamp" ladder = Some (dict_get m "timestamp" VNone)
    /\ forall self' : DecisionEngine,
        make_decision_try self' payment_id risk_score (VDict m)
        = (critical <- _check_critical_patterns (VDict m) ;;
           let decision :=
             if critical
             then set_action "flag" "Critical risk pattern detected" ladder
             else ladder in
           Ok (decision, append_pending decision self')).
Proof.
  intros Hnum.
  destruct (py_lt_int_number _ _ 20 Hnum) as [b20 H20].
  destruct (py_lt_int_number _ _ 40 Hnum) as [b40 H40].
  destruct (py_lt_int_number _ _ 60 Hnum) as [b60 H60].
  destruct (py_lt_int_number _ _ 80 Hnum) as [b80 H80].
  destruct b20; [ | destruct b40; [ | destruct b60; [ | destruct b80 ] ] ];
    (eexists; (split; [ | split; [ | split ] ]);
     [ .. | intros self'; run_decision; reflexivity ]; reflexivity).
Qed.

(** C2: an amount above 100,000 or a suspicious keyword in the metadata
    forces the action flag with the critical-pattern reason, whatever the
    risk score; the override runs after the ladder and replaces the action
    and reason the ladder chose. *)
Theorem critical_override_forces_flag
    (self : DecisionEngine) (payment_id risk_score : pyval)
    (m : pydict) (f a : pyfloat) :
  number_of risk_score = Some f ->
  number_of (amount_of m) = Some a ->
  above a 100000 \/ mentions_keyword (metadata_of m) ->
  let decision := fst (make_decision self payment_id risk_score (VDict m)) in
  action_of decision = Some (VStr "flag")
  /\ reason_of decision = Some (VStr "Critical risk pattern detected")
  /\ dict_lookup "payment_id" decision = Some payment_id
  /\ dict_lookup "risk_score" decision = Some risk_score
  /\ (forall m' : pydict,
         dict_get m' "timestamp" VNone = dict_get m "timestamp" VNone ->
         _check_critical_patterns (VDict m') = Ok false ->
         decision
         = set_action "flag" "Critical risk pattern detected"
             (fst (make_decision self payment_id risk_score (VDict m')))).
Proof.
  intros Hnum Hamount Hcritical decision. subst decision.
  apply (check_critical_patterns_true_iff m a Hamount) in Hcritical.
  destruct (make_decision_try_numeric self payment_id risk_score m f Hnum)
    as [ladder [Hid [Hscore [Hts Htry]]]].
  unfold make_decision. rewrite Htry, Hcritical. cbn [bind fst].
  rewrite action_of_set_action, reason_of_set_action.
  rewrite !lookup_set_action_other by discriminate.
  repeat split; auto.
  intros m' Hsame Hclear.
  destruct (py_lt_int_number _ _ 20 Hnum) as [b20 H20].
  destruct (py_lt_int_number _ _ 40 Hnum) as [b40 H40].
  destruct (py_lt_int_number _ _ 60 Hnum) as [b60 H60].
  destruct (py_lt_int_number _ _ 80 Hnum) as [b80 H80].
  specialize (Htry self). revert Htry. run_decision. fold (dict_get m' "timestamp" VNone).
  fold (dict_get m "timestamp" VNone). rewrite Hsame.
  destruct b20; [ | destruct b40; [ | destruct b60; [ | destruct b80 ] ] ];
    cbn [bind fst]; intros Htry; injection Htry as Htry _; rewrite <- Htry;
    reflexivity.
Qed.


(** ** Exceptions, the queue and the engine state *)

Lemma dict_get_missing (m : pydict) (k : string) (default : pyval) :
  dict_lookup k m = None -> dict_get m k default = default.
Proof. intros H. unfold dict_get. now rewrite H. Qed.

Lemma pending_after_appends (ds : list pydict) (self : DecisionEngine) :
  pending_decisions (fold_left (fun s d => append_pending d s) ds self)
  = (pending_decisions self ++ ds)%list.
Proof.
  revert self.
  induction ds as [ | d ds IH]; intros self; simpl.
  - now rewrite app_nil_r.
  - rewrite IH. simpl. now rewrite <- app_assoc.
Qed.

(** C4: whatever decisions were appended since the previous drain, one call
    of [get_pending_decisions] returns exactly them, in append order, and
    leaves the queue empty; a second drain right after returns the empty
    list. *)
Theorem get_pending_decisions_drains_once
    (self : DecisionEngine) (ds : list pydict) :
  let drained := snd (get_pending_decisions self) in
  let filled := fold_left (fun s d => append_pending d s) ds drained in
  let first := get_pending_decisions filled in
  let second := get_pending_decisions (snd first) in
  fst first = ds
  /\ pending_decisions (snd first) = []
  /\ fst second = []
  /\ pending_decisions (snd second) = [].
Proof.
  cbv zeta. unfold get_pending_decisions. cbn [fst snd].
  rewrite pending_after_appends. cbn [clear_pending pending_decisions app].
  repeat split.
Qed.

(** The returned record never depends on the engine it is computed on. *)
Lemma make_decision_try_engine
    (e1 e2 : DecisionEngine) (payment_id risk_score payment_data : pyval) :
  match make_decision_try e1 payment_id risk_score payment_data,
        make_decision_try e2 payment_id risk_score payment_data with
  | Ok (d1, e1'), Ok (d2, e2') =>
      d1 = d2 /\ e1' = append_pending d1 e1 /\ e2' = append_pending d2 e2
  | Raise x1, Raise x2 => x1 = x2
  | _, _ => False
  end.
Proof.
  unfold make_decision_try.
  destruct (py_get payment_data "timestamp" VNone) as [ts | e];
    cbn [bind]; [ | reflexivity ].
  match goal with
  | |- context [bind ?ladder _] => destruct ladder as [d | e]
  end; cbn [bind]; [ | reflexivity ].
  destruct (_check_critical_patterns payment_data) as [c | e];
    cbn [bind]; [ | reflexivity ].
  repeat split.
Qed.

(** C5: the configured risk_threshold does not reach the decision.  Two
    engines that differ in their configuration and risk_threshold, run on
    the same payment id, score and payment data, return the same record and
    end with the same queue. *)
Theorem risk_threshold_noninterference
    (cfg1 cfg2 : pydict) (threshold1 threshold2 address : pyval)
    (queue : list pydict) (payment_id risk_score payment_data : pyval) :
  let e1 := mkEngine cfg1 threshold1 address queue in
  let e2 := mkEngine cfg2 threshold2 address queue in
  let r1 := make_decision e1 payment_id risk_score payment_data in
  let r2 := make_decision e2 payment_id risk_score payment_data in
  fst r1 = fst r2
  /\ pending_decisions (snd r1) = pending_decisions (snd r2).
Proof.
  cbv zeta. unfold make_decision.
  pose proof (make_decision_try_engine
                (mkEngine cfg1 threshold1 address queue)
                (mkEngine cfg2 threshold2 address queue)
                payment_id risk_score payment_data) as H.
  destruct (make_decision_try (mkEngine cfg1 threshold1 address queue) _ _ _)
    as [[d1 e1'] | x1];
    destruct (make_decision_try (mkEngine cfg2 threshold2 address queue) _ _ _)
    as [[d2 e2'] | x2]; try contradiction.
  - destruct H as [-> [-> ->]]. split; reflexivity.
  - subst x2. split; reflexivity.
Qed.

(** C6: a call of [make_decision] that completes without an internal
    exception appends the record it returns at the tail of the pending
    queue; the decisions queued before, the configuration, the
    risk_threshold and the contract address stay as they were. *)
Theorem make_decision_appends_returned_record
    (self : DecisionEngine) (payment_id risk_score payment_data : pyval)
    (r : pydict * DecisionEngine) :
  make_decision_try self payment_id risk_score payment_data = Ok r ->
  let decision := fst (make_decision self payment_id risk_score payment_data) in
  let self' := snd (make_decision self payment_id risk_score payment_data) in
  (decision, self') = r
  /\ pending_decisions self' = (pending_decisions self ++ [decision])%list
  /\ config self' = config self
  /\ risk_threshold self' = risk_threshold self
  /\ contract_address self' = contract_address self.
Proof.
  intros Htry. cbv zeta. unfold make_decision.
  pose proof (make_decision_try_engine self self
                payment_id risk_score payment_data) as H.
  rewrite Htry in H. rewrite Htry. destruct r as [d e'].
  destruct H as [_ [-> _]]. repeat split.
Qed.


(** ** Keywords survive [repr] and [lower] *)

Lemma append_assoc (a b c : string) : (a ++ b) ++ c = a ++ b ++ c.
Proof. induction a as [ | x a IH]; simpl; congruence. Qed.

Lemma lower_app (a b : string) : lower (a ++ b) = lower a ++ lower b.
Proof. induction a as [ | x a IH]; simpl; congruence. Qed.

Lemma occurs_in_lower (k s : string) :
  occurs_in k s -> occurs_in (lower k) (lower s).
Proof.
  intros [before [after ->]]. exists (lower before), (lower after).
  now rewrite !lower_app.
Qed.

Lemma occurs_in_wrap (k s a b : string) :
  occurs_in k s -> occurs_in k (a ++ s ++ b).
Proof.
  intros [before [after ->]]. exists (a ++ before), (after ++ b).
  now rewrite !append_assoc.
Qed.

Lemma occurs_in_join (k sep p : string) (parts : list string) :
  In p parts -> occurs_in k p -> occurs_in k (join sep parts).
Proof.
  intros Hin Hocc.
  induction parts as [ | p0 rest IH]; [ contradiction | ].
  destruct rest as [ | p1 rest].
  - destruct Hin as [-> | []]. exact Hocc.
  - change (join sep (p0 :: p1 :: rest))
      with (p0 ++ sep ++ join sep (p1 :: rest)).
    destruct Hin as [-> | Hin].
    + apply (occurs_in_wrap k p EmptyString). exact Hocc.
    + rewrite <- append_assoc.
      replace (join sep (p1 :: rest))
        with (join sep (p1 :: rest) ++ EmptyString).
      * apply occurs_in_wrap. now apply IH.
      * generalize (join sep (p1 :: rest)).
        intros s. induction s as [ | x s IHs]; simpl; congruence.
Qed.

Lemma is_letter_lower_char (c : ascii) :
  is_letter (lower_char c) = true -> is_letter c = true.
Proof.
  destruct c as [[] [] [] [] [] [] [] []]; vm_compute; congruence.
Qed.

Lemma all_letters_lower (k : string) :
  all_letters (lower k) = true -> all_letters k = true.
Proof.
  induction k as [ | c k IH]; simpl; [ reflexivity | ].
  intros H. apply andb_true_iff in H. destruct H as [Hc Hk].
  apply andb_true_iff. split; [ now apply is_letter_lower_char | now apply IH ].
Qed.

Lemma repr_char_letter (quote c : ascii) :
  quote = squote \/ quote = dquote ->
  is_letter c = true -> repr_char quote c = String c EmptyString.
Proof.
  intros [-> | ->];
    destruct c as [[] [] [] [] [] [] [] []]; vm_compute; congruence.
Qed.

Lemma repr_chars_app (quote : ascii) (a b : string) :
  repr_chars quote (a ++ b) = repr_chars quote a ++ repr_chars quote b.
Proof.
  induction a as [ | x a IH]; cbn [repr_chars append]; [ reflexivity | ].
  now rewrite IH, append_assoc.
Qed.

Lemma repr_chars_letters (quote : ascii) (k : string) :
  quote = squote \/ quote = dquote ->
  all_letters k = true -> repr_chars quote k = k.
Proof.
  intros Hq. induction k as [ | c k IH]; cbn [repr_chars all_letters];
    [ reflexivity | ].
  intros H. apply andb_true_iff in H. destruct H as [Hc Hk].
  now rewrite (repr_char_letter quote c Hq Hc), (IH Hk).
Qed.

(** A run of letters inside a string is still there in its [repr]. *)
Lemma occurs_in_repr_str (k v : string) :
  all_letters k = true -> occurs_in k v -> occurs_in k (repr_str v).
Proof.
  intros Hk [before [after E]]. unfold repr_str.
  set (quote := if has_char squote v && negb (has_char dquote v)
                then dquote else squote).
  assert (Hq : quote = squote \/ quote = dquote)
    by (subst quote; destruct (_ && _); auto).
  clearbody quote. subst v.
  rewrite !repr_chars_app, (repr_chars_letters quote k Hq Hk).
  exists (String quote (repr_chars quote before)),
         (repr_chars quote after ++ String quote EmptyString).
  cbn [append]. now rewrite !append_assoc.
Qed.

Lemma py_repr_dict (d : pydict) :
  py_repr (VDict d)
  = "{" ++ join ", "
             (map (fun '(k, x) => repr_str k ++ ": " ++ py_repr x) d)
        ++ "}".
Proof. reflexivity. Qed.

Lemma occurs_in_dict_entry (k key : string) (x : pyval) (d : pydict) :
  In (key, x) d ->
  occurs_in k (repr_str key ++ ": " ++ py_repr x) ->
  occurs_in k (py_repr (VDict d)).
Proof.
  intros Hin Hocc. rewrite py_repr_dict.
  apply occurs_in_wrap.
  apply occurs_in_join with (p := repr_str key ++ ": " ++ py_repr x);
    [ | exact Hocc ].
  apply (in_map (fun '(k, x) => repr_str k ++ ": " ++ py_repr x) d (key, x)).
  exact Hin.
Qed.

Lemma keyword_letters (k : string) :
  In (lower k) suspicious_keywords -> all_letters k = true.
Proof.
  intros Hin. apply all_letters_lower.
  destruct Hin as [<- | [<- | [<- | [<- | []]]]]; reflexivity.
Qed.

(** A case variant of a keyword in a key of the metadata mapping. *)
Lemma mentions_keyword_in_key (d : pydict) (key k : string) (x : pyval) :
  In (key, x) d -> occurs_in k key -> In (lower k) suspicious_keywords ->
  mentions_keyword (VDict d).
Proof.
  intros Hin Hocc Hkw. exists (lower k). split; [ exact Hkw | ].
  apply occurs_in_lower. cbn [py_str].
  apply (occurs_in_dict_entry k key x d Hin).
  replace (repr_str key ++ ": " ++ py_repr x)
    with (EmptyString ++ repr_str key ++ ": " ++ py_repr x) by reflexivity.
  apply occurs_in_wrap, occurs_in_repr_str; [ | exact Hocc ].
  now apply keyword_letters.
Qed.

(** A case variant of a keyword in a string value of the metadata mapping. *)
Lemma mentions_keyword_in_value (d : pydict) (key k v : string) :
  In (key, VStr v) d -> occurs_in k v -> In (lower k) suspicious_keywords ->
  mentions_keyword (VDict d).
Proof.
  intros Hin Hocc Hkw. exists (lower k). split; [ exact Hkw | ].
  apply occurs_in_lower. cbn [py_str].
  apply (occurs_in_dict_entry k key (VStr v) d Hin).
  rewrite <- append_assoc.
  replace (py_repr (VStr v)) with (repr_str v ++ EmptyString).
  - apply occurs_in_wrap, occurs_in_repr_str; [ | exact Hocc ].
    now apply keyword_letters.
  - cbn [py_repr]. generalize (repr_str v).
    intros s. induction s as [ | c s IHs]; simpl; congruence.
Qed.

(** ** The keyword search *)

(** A keyword in the metadata makes the check answer [True] unless the
    amount comparison raises first. *)
Lemma check_critical_patterns_keyword (m : pydict) :
  mentions_keyword (metadata_of m) ->
  _check_critical_patterns (VDict m) = Ok true
  \/ exists e, _check_critical_patterns (VDict m) = Raise e.
Proof.
  intros Hkw.
  destruct (number_of (amount_of m)) as [a | ] eqn:Hamount.
  - left. apply (check_critical_patterns_true_iff m a Hamount). now right.
  - right. unfold _check_critical_patterns, py_gt_int.
    cbn [py_get bind]. fold (dict_get m "amount" (VInt 0)). fold (amount_of m).
    rewrite Hamount. cbn [bind]. eauto.
Qed.

(** C10: the keyword check is a substring search in the lowercased string
    form of the whole metadata mapping.  On a numeric or absent amount the
    check answers true exactly when the amount is above the cutoff or a
    keyword occurs in that string; a keyword anywhere in it (in a key, in a
    value, inside a longer word, in any letter case) forces the action flag;
    absent metadata is the empty mapping and matches no keyword. *)
Theorem keyword_check_is_substring_search :
  (forall (m : pydict) (a : pyfloat),
      number_of (amount_of m) = Some a ->
      (_check_critical_patterns (VDict m) = Ok true
       <-> above a 100000 \/ mentions_keyword (metadata_of m)))
  /\ (forall (self : DecisionEngine) (payment_id risk_score : pyval)
             (m : pydict),
         mentions_keyword (metadata_of m) ->
         action_of (fst (make_decision self payment_id risk_score (VDict m)))
         = Some (VStr "flag"))
  /\ (forall (d : pydict) (key k : string) (x : pyval),
         In (key, x) d -> occurs_in k key ->
         In (lower k) suspicious_keywords ->
         mentions_keyword (VDict d))
  /\ (forall (d : pydict) (key k v : string),
         In (key, VStr v) d -> occurs_in k v ->
         In (lower k) suspicious_keywords ->
         mentions_keyword (VDict d))
  /\ mentions_keyword (VDict [("hack_ref", VInt 7)])
  /\ mentions_keyword (VDict [("note", VStr "rug pull")])
  /\ mentions_keyword (VDict [("event", VStr "hackathon prize")])
  /\ mentions_keyword (VDict [("note", VList [VStr "DrAiN"; VNone])])
  /\ (forall m : pydict,
         dict_lookup "metadata" m = None ->
         metadata_of m = VDict []
         /\ lower (py_str (metadata_of m)) = "{}"
         /\ ~ mentions_keyword (metadata_of m)).
Proof.
  split; [ exact check_critical_patterns_true_iff | ].
  split.
  { intros self payment_id risk_score m Hkw.
    unfold make_decision, make_decision_try. cbn [py_get bind].
    repeat match goal with
      | |- context [bind (py_lt_int ?v ?n) _] =>
          destruct (py_lt_int v n) as [[ | ] | ?]; cbn [bind]
      end;
      try reflexivity;
      (destruct (check_critical_patterns_keyword m Hkw) as [H | [e H]];
       rewrite H; reflexivity). }
  split; [ exact mentions_keyword_in_key | ].
  split; [ exact mentions_keyword_in_value | ].
  repeat split;
    try (apply any_keyword_in_iff; reflexivity).
  - unfold metadata_of. now apply dict_get_missing.
  - unfold metadata_of. now rewrite (dict_get_missing _ _ _ H).
  - unfold metadata_of. rewrite (dict_get_missing _ _ _ H).
    intros Hkw. apply any_keyword_in_iff in Hkw. discriminate.
Qed.


(** ** Further properties of the engine *)

Lemma float_lt_true_iff (f : pyfloat) (n : Z) :
  float_lt f (Finite (inject_Z n)) = true <-> below f (inject_Z n).
Proof.
  split; [ | apply float_lt_below ].
  destruct f as [q | neg | ]; cbn [float_lt below].
  - destruct (Qcompare q (inject_Z n)) eqn:E; try discriminate.
    intros _. exact (proj2 (Qlt_alt _ _) E).
  - auto.
  - discriminate.
Qed.

Lemma float_lt_false (f : pyfloat) (n : Z) :
  float_lt f (Finite (inject_Z n)) = false ->
  at_least f (inject_Z n) \/ f = NaN.
Proof.
  destruct f as [q | neg | ]; cbn [float_lt at_least]; intros H.
  - left. apply Qnot_lt_le. intros Hlt.
    now rewrite (proj1 (Qlt_alt _ _) Hlt) in H.
  - left. exact H.
  - right. reflexivity.
Qed.

Lemma below_at_least_absurd (f : pyfloat) (a b : Q) :
  (a <= b)%Q -> below f a -> at_least f b -> False.
Proof.
  destruct f as [q | neg | ]; cbn [below at_least]; intros Hab Hlo Hhi.
  - apply (Qlt_not_le _ _ Hlo). now apply Qle_trans with b.
  - congruence.
  - exact Hlo.
Qed.

Lemma py_lt_int_value (v : pyval) (f : pyfloat) (n : Z) :
  number_of v = Some f ->
  py_lt_int v n = Ok (float_lt f (Finite (inject_Z n))).
Proof. intros Hv. unfold py_lt_int. now rewrite Hv. Qed.

(** The rung a numeric score lands on, and the record the ladder leaves
    for the critical check. *)
Lemma ladder_cases (payment_id risk_score : pyval) (m : pydict) (f : pyfloat) :
  number_of risk_score = Some f ->
  let record := ladder_record payment_id risk_score
                  (dict_get m "timestamp" VNone) in
  exists ladder : pydict,
    (forall self : DecisionEngine,
        make_decision_try self payment_id risk_score (VDict m)
        = (critical <- _check_critical_patterns (VDict m) ;;
           let decision :=
             if critical
             then set_action "flag" "Critical risk pattern detected" ladder
             else ladder in
           Ok (decision, append_pending decision self)))
    /\ ((below f 20
         /\ ladder = record "approve" "Very low risk transaction")
        \/ (at_least f 20 /\ below f 40
            /\ ladder = record "approve" "Low risk transaction")
        \/ (at_least f 40 /\ below f 60
            /\ ladder = record "verify_zk_proof"
                          "Medium risk - additional verification required")
        \/ (at_least f 60 /\ below f 80
            /\ ladder = (record "enhance_privacy"
                           "High risk - enhanced privacy measures applied"
                         ++ [("privacy_level", VStr "high")])%list)
        \/ ((at_least f 80 \/ f = NaN)
            /\ ladder = record "flag"
                          "Very high risk - flagged for manual review")).
Proof.
  intros Hnum record.
  pose proof (py_lt_int_value _ _ 20 Hnum) as H20.
  pose proof (py_lt_int_value _ _ 40 Hnum) as H40.
  pose proof (py_lt_int_value _ _ 60 Hnum) as H60.
  pose proof (py_lt_int_value _ _ 80 Hnum) as H80.
  destruct (float_lt f (Finite (inject_Z 20))) eqn:E20;
    [ | destruct (float_lt f (Finite (inject_Z 40))) eqn:E40;
        [ | destruct (float_lt f (Finite (inject_Z 60))) eqn:E60;
            [ | destruct (float_lt f (Finite (inject_Z 80))) eqn:E80 ] ] ];
    (eexists; split; [ intros self; run_decision; reflexivity | ]).
  - left. split; [ now apply float_lt_true_iff | reflexivity ].
  - right; left. apply float_lt_true_iff in E40.
    destruct (float_lt_false _ _ E20) as [Hlo | ->]; [ | contradiction ].
    repeat split; assumption.
  - right; right; left. apply float_lt_true_iff in E60.
    destruct (float_lt_false _ _ E40) as [Hlo | ->]; [ | contradiction ].
    repeat split; assumption.
  - right; right; right; left. apply float_lt_true_iff in E80.
    destruct (float_lt_false _ _ E60) as [Hlo | ->]; [ | contradiction ].
    repeat split; assumption.
  - right; right; right; right.
    split; [ exact (float_lt_false _ _ E80) | reflexivity ].
Qed.

(** X1: the [try] block of [make_decision] completes exactly when the
    payment data is a dictionary, the score is a number and the amount is a
    number or absent; otherwise the first failing step decides the
    exception: the missing [get], then the score comparison, then the
    amount comparison. *)
Theorem make_decision_try_outcome
    (self : DecisionEngine) (payment_id risk_score payment_data : pyval) :
  match payment_data with
  | VDict m =>
      match number_of risk_score, number_of (amount_of m) with
      | None, _ =>
          make_decision_try self payment_id risk_score payment_data
          = Raise (unorderable "<" risk_score)
      | Some _, None =>
          make_decision_try self payment_id risk_score payment_data
          = Raise (unorderable ">" (amount_of m))
      | Some _, Some _ =>
          exists decision : pydict,
            make_decision_try self payment_id risk_score payment_data
            = Ok (decision, append_pending decision self)
      end
  | _ =>
      make_decision_try self payment_id risk_score payment_data
      = Raise (AttributeError
                 ("'" ++ type_name payment_data
                      ++ "' object has no attribute 'get'"))
  end.
Proof.
  destruct payment_data as [ | b | z | g | s | l | m ]; try reflexivity.
  destruct (number_of risk_score) as [f | ] eqn:Hnum.
  - destruct (ladder_cases payment_id risk_score m f Hnum) as [ladder [Htry _]].
    destruct (number_of (amount_of m)) as [a | ] eqn:Hamount.
    + rewrite Htry, (check_critical_patterns_dict m a Hamount).
      cbn [bind]. eauto.
    + rewrite Htry. unfold _check_critical_patterns, py_gt_int.
      cbn [py_get bind]. fold (dict_get m "amount" (VInt 0)).
      fold (amount_of m). now rewrite Hamount.
  - unfold make_decision_try, py_lt_int. cbn [py_get bind].
    rewrite Hnum. cbn [bind].
    destruct (number_of (amount_of m)); reflexivity.
Qed.

Ltac absurd_range :=
  match goal with
  | Hlo : below ?f ?a, Hhi : at_least ?f ?b |- _ =>
      exfalso; apply (below_at_least_absurd f a b); [ lra | exact Hlo | exact Hhi ]
  | Hlo : below NaN _ |- _ => exfalso; exact Hlo
  | Hhi : at_least NaN _ |- _ => exfalso; exact Hhi
  end.

(** X2: without a critical override the action tells the range of the
    score, for every numeric score: approve exactly below 40, the ZK proof
    exactly in [40,60), enhanced privacy exactly in [60,80), and flag exactly
    when the score is not below 80 (80 or more, plus infinity, or NaN). *)
Theorem ladder_action_iff
    (self : DecisionEngine) (payment_id risk_score : pyval)
    (m : pydict) (f : pyfloat) :
  number_of risk_score = Some f ->
  _check_critical_patterns (VDict m) = Ok false ->
  let action :=
    action_of (fst (make_decision self payment_id risk_score (VDict m))) in
  (action = Some (VStr "approve") <-> below f 40)
  /\ (action = Some (VStr "verify_zk_proof") <-> at_least f 40 /\ below f 60)
  /\ (action = Some (VStr "enhance_privacy") <-> at_least f 60 /\ below f 80)
  /\ (action = Some (VStr "flag") <-> ~ below f 80).
Proof.
  intros Hnum Hcheck action. subst action.
  destruct (ladder_cases payment_id risk_score m f Hnum)
    as [ladder [Htry Hcases]].
  unfold make_decision. rewrite Htry, Hcheck. cbn [bind fst].
  destruct Hcases
    as [[H1 ->] | [[H1 [H2 ->]] | [[H1 [H2 ->]] | [[H1 [H2 ->]] | [H1 ->]]]]];
    cbn [action_of ladder_record dict_lookup app String.eqb Ascii.eqb Bool.eqb].
  - repeat split; try discriminate; intros; try absurd_range.
    + destruct f as [q | neg | ]; cbn [below] in *; try lra; auto.
    + destruct H as [Ha Hb]. absurd_range.
    + destruct H as [Ha Hb]. absurd_range.
    + exfalso. apply H. destruct f as [q | neg | ]; cbn [below] in *; try lra; auto.
  - repeat split; try discriminate; intros; try absurd_range.
    + exact H2.
    + destruct H as [Ha Hb]. absurd_range.
    + destruct H as [Ha Hb]. absurd_range.
    + exfalso. apply H. destruct f as [q | neg | ]; cbn [below] in *; try lra; auto.
  - repeat split; try discriminate; intros; try assumption; try absurd_range.
    + destruct H as [Ha Hb]. absurd_range.
    + exfalso. apply H. destruct f as [q | neg | ]; cbn [below] in *; try lra; auto.
  - repeat split; try discriminate; intros; try assumption; try absurd_range.
    + destruct H as [Ha Hb]. absurd_range.
    + exfalso. apply H. exact H2.
  - assert (Hnot : ~ below f 80).
    { intros Hlow. destruct H1 as [H1 | ->]; [ absurd_range | exact Hlow ]. }
    repeat split; try discriminate; intros; try assumption.
    + exfalso. apply Hnot.
      destruct f as [q | neg | ]; cbn [below] in *; try lra; auto.
    + destruct H as [Ha Hb]. exfalso. apply Hnot.
      destruct f as [q | neg | ]; cbn [below] in *; try lra; auto.
    + destruct H as [Ha Hb]. contradiction.
Qed.


(** X3: for a numeric score and a numeric or absent amount, the returned
    record holds the key privacy_level, with value high, exactly when the
    score is in [60,80); the critical override does not add or remove it. *)
Theorem privacy_level_iff
    (self : DecisionEngine) (payment_id risk_score : pyval)
    (m : pydict) (f a : pyfloat) :
  number_of risk_score = Some f ->
  number_of (amount_of m) = Some a ->
  let decision := fst (make_decision self payment_id risk_score (VDict m)) in
  (at_least f 60 /\ below f 80 ->
   dict_lookup "privacy_level" decision = Some (VStr "high"))
  /\ (~ (at_least f 60 /\ below f 80) ->
      dict_lookup "privacy_level" decision = None).
Proof.
  intros Hnum Hamount decision. subst decision.
  destruct (ladder_cases payment_id risk_score m f Hnum)
    as [ladder [Htry Hcases]].
  unfold make_decision.
  rewrite Htry, (check_critical_patterns_dict m a Hamount). cbn [bind fst].
  assert (Hsame : dict_lookup "privacy_level"
                    (if float_lt (Finite (inject_Z 100000)) a
                        || any_keyword_in suspicious_keywords
                             (lower (py_str (metadata_of m)))
                     then set_action "flag" "Critical risk pattern detected"
                            ladder
                     else ladder)
                  = dict_lookup "privacy_level" ladder).
  { destruct (_ || _); [ | reflexivity ].
    now rewrite lookup_set_action_other by discriminate. }
  rewrite Hsame. clear Hsame Htry.
  destruct Hcases
    as [[H1 ->] | [[H1 [H2 ->]] | [[H1 [H2 ->]] | [[H1 [H2 ->]] | [H1 ->]]]]];
    split; intros H; try reflexivity;
    try (destruct H as [Ha Hb]; absurd_range).
  - exfalso. apply H. now split.
  - destruct H as [Ha Hb]. destruct H1 as [H1 | ->]; absurd_range.
Qed.

Lemma action_of_ladder_record
    (payment_id risk_score timestamp : pyval) (action reason : string)
    (more : pydict) :
  action_of (ladder_record payment_id risk_score timestamp action reason
             ++ more)%list
  = Some (VStr action).
Proof. reflexivity. Qed.

Lemma action_of_ladder_record_only
    (payment_id risk_score timestamp : pyval) (action reason : string) :
  action_of (ladder_record payment_id risk_score timestamp action reason)
  = Some (VStr action).
Proof. reflexivity. Qed.

(** X4: the ladder is monotone.  Of two finite scores on the same payment
    data, the higher one never gets the less severe action, in the order
    approve, verify_zk_proof, enhance_privacy, flag; this holds with the
    override and on the error path as well. *)
Theorem ladder_severity_monotone
    (self : DecisionEngine) (payment_id score1 score2 payment_data : pyval)
    (x y : Q) :
  number_of score1 = Some (Finite x) ->
  number_of score2 = Some (Finite y) ->
  (x <= y)%Q ->
  (severity (action_of (fst (make_decision self payment_id score1 payment_data)))
   <= severity (action_of (fst (make_decision self payment_id score2 payment_data))))%nat.
Proof.
  intros H1 H2 Hxy.
  destruct payment_data as [ | b | z | g | s | l | m ];
    try (unfold make_decision, make_decision_try; cbn [py_get bind fst];
         rewrite !action_of_error_decision; apply Nat.le_refl).
  destruct (ladder_cases payment_id score1 m (Finite x) H1)
    as [ladder1 [Htry1 Hcases1]].
  destruct (ladder_cases payment_id score2 m (Finite y) H2)
    as [ladder2 [Htry2 Hcases2]].
  unfold make_decision. rewrite Htry1, Htry2.
  destruct (_check_critical_patterns (VDict m)) as [[ | ] | e];
    cbn [bind fst].
  - rewrite !action_of_set_action. apply Nat.le_refl.
  - destruct Hcases1
      as [[A1 ->] | [[A1 [A2 ->]] | [[A1 [A2 ->]] | [[A1 [A2 ->]] | [A1 ->]]]]];
      destruct Hcases2
      as [[B1 ->] | [[B1 [B2 ->]] | [[B1 [B2 ->]] | [[B1 [B2 ->]] | [B1 ->]]]]];
      try (destruct A1 as [A1 | A1]; [ | discriminate ]);
      try (destruct B1 as [B1 | B1]; [ | discriminate ]);
      cbn [below at_least] in *;
      first
        [ exfalso; lra
        | rewrite ?action_of_ladder_record, ?action_of_ladder_record_only;
          vm_compute; lia ].
  - rewrite !action_of_error_decision. apply Nat.le_refl.
Qed.

Lemma make_decision_try_non_number
    (self : DecisionEngine) (payment_id risk_score : pyval) (m : pydict) :
  number_of risk_score = None ->
  make_decision_try self payment_id risk_score (VDict m)
  = Raise (unorderable "<" risk_score).
Proof.
  intros Hnum. unfold make_decision_try, py_lt_int. cbn [py_get bind].
  now rewrite Hnum.
Qed.

(** ** What [make_decision] returns on every input *)

Lemma make_decision_try_bad_amount
    (self : DecisionEngine) (payment_id risk_score : pyval) (m : pydict)
    (f : pyfloat) :
  number_of risk_score = Some f ->
  number_of (amount_of m) = None ->
  make_decision_try self payment_id risk_score (VDict m)
  = Raise (unorderable ">" (amount_of m)).
Proof.
  intros Hnum Hamount.
  destruct (ladder_cases payment_id risk_score m f Hnum) as [ladder [Htry _]].
  rewrite Htry. unfold _check_critical_patterns, py_gt_int.
  cbn [py_get bind]. fold (dict_get m "amount" (VInt 0)).
  fold (amount_of m). now rewrite Hamount.
Qed.

Ltac table_record action reason extra :=
  exists action, reason, extra;
  split; [ cbv; tauto | ];
  split; [ first [ left; reflexivity | right; reflexivity ] | reflexivity ].

(** C3: [make_decision] never lets an exception out and always answers
    with a decision.  Payment data without a [get], a score that cannot be
    compared with 20, or an amount that cannot be compared with 100000 make
    the decision construction raise: the call then returns the record with
    the payment id, the action flag and the reason that embeds the
    exception message, and leaves the engine as it was.  On every other
    input it returns and queues a record with the payment id, the score,
    the timestamp and an action and reason of the table.  Missing entries
    are interpreted, not refused: a missing timestamp behaves as None, a
    missing amount as 0 and missing metadata as the empty mapping, and with
    all three missing (or the metadata empty) the record is the ladder's
    record for the score, with timestamp None. *)
Theorem make_decision_never_raises
    (self : DecisionEngine) (payment_id risk_score payment_data : pyval) :
  let result := make_decision self payment_id risk_score payment_data in
  let caught (message : string) : Prop :=
    result
    = ([("payment_id", payment_id);
        ("action", VStr "flag");
        ("reason", VStr ("Error in decision making: " ++ message))],
       self) in
  match payment_data with
  | VDict m =>
      match number_of risk_score, number_of (amount_of m) with
      | None, _ =>
          caught ("'<' not supported between instances of '"
                    ++ type_name risk_score ++ "' and 'int'")
      | Some _, None =>
          caught ("'>' not supported between instances of '"
                    ++ type_name (amount_of m) ++ "' and 'int'")
      | Some _, Some _ =>
          exists (action reason : string) (extra : pydict),
            In (action, reason) decision_table
            /\ (extra = [] \/ extra = [("privacy_level", VStr "high")])
            /\ result
               = let decision :=
                   (ladder_record payment_id risk_score
                      (dict_get m "timestamp" VNone) action reason
                    ++ extra)%list in
                 (decision, append_pending decision self)
      end
  | _ =>
      caught ("'" ++ type_name payment_data
                  ++ "' object has no attribute 'get'")
  end
  /\ (forall m : pydict,
         payment_data = VDict m ->
         (dict_lookup "timestamp" m = None ->
          result = make_decision self payment_id risk_score
                     (VDict (("timestamp", VNone) :: m)))
         /\ (dict_lookup "amount" m = None ->
             result = make_decision self payment_id risk_score
                        (VDict (("amount", VInt 0) :: m)))
         /\ (dict_lookup "metadata" m = None ->
             result = make_decision self payment_id risk_score
                        (VDict (("metadata", VDict []) :: m))))
  /\ (forall (m : pydict) (f : pyfloat),
         payment_data = VDict m ->
         number_of risk_score = Some f ->
         dict_lookup "timestamp" m = None ->
         dict_lookup "amount" m = None ->
         dict_lookup "metadata" m = None
         \/ dict_lookup "metadata" m = Some (VDict []) ->
         let record := ladder_record payment_id risk_score VNone in
         exists decision : pydict,
           result = (decision, append_pending decision self)
           /\ ((below f 20
                /\ decision = record "approve" "Very low risk transaction")
               \/ (at_least f 20 /\ below f 40
                   /\ decision = record "approve" "Low risk transaction")
               \/ (at_least f 40 /\ below f 60
                   /\ decision
                      = record "verify_zk_proof"
                          "Medium risk - additional verification required")
               \/ (at_least f 60 /\ below f 80
                   /\ decision
                      = (record "enhance_privacy"
                           "High risk - enhanced privacy measures applied"
                         ++ [("privacy_level", VStr "high")])%list)
               \/ ((at_least f 80 \/ f = NaN)
                   /\ decision
                      = record "flag"
                          "Very high risk - flagged for manual review"))).
Proof.
  cbv zeta. split; [ | split ].
  - destruct payment_data as [ | b | z | g | s | l | m ]; try reflexivity.
    destruct (number_of risk_score) as [f | ] eqn:Hnum.
    + destruct (number_of (amount_of m)) as [a | ] eqn:Hamount.
      * destruct (ladder_cases payment_id risk_score m f Hnum)
          as [ladder [Htry Hcases]].
        unfold make_decision.
        rewrite Htry, (check_critical_patterns_dict m a Hamount).
        cbn [bind].
        destruct (_ || _);
          destruct Hcases
            as [[_ ->] | [[_ [_ ->]] | [[_ [_ ->]] | [[_ [_ ->]] | [_ ->]]]]].
        -- table_record "flag" "Critical risk pattern detected" (@nil (string * pyval)).
        -- table_record "flag" "Critical risk pattern detected" (@nil (string * pyval)).
        -- table_record "flag" "Critical risk pattern detected" (@nil (string * pyval)).
        -- table_record "flag" "Critical risk pattern detected"
             [("privacy_level", VStr "high")].
        -- table_record "flag" "Critical risk pattern detected" (@nil (string * pyval)).
        -- table_record "approve" "Very low risk transaction" (@nil (string * pyval)).
        -- table_record "approve" "Low risk transaction" (@nil (string * pyval)).
        -- table_record "verify_zk_proof"
             "Medium risk - additional verification required"
             (@nil (string * pyval)).
        -- table_record "enhance_privacy"
             "High risk - enhanced privacy measures applied"
             [("privacy_level", VStr "high")].
        -- table_record "flag" "Very high risk - flagged for manual review"
             (@nil (string * pyval)).
      * unfold make_decision.
        now rewrite (make_decision_try_bad_amount self payment_id risk_score
                       m f Hnum Hamount).
    + unfold make_decision.
      now rewrite (make_decision_try_non_number self payment_id risk_score
                     m Hnum).
  - intros m ->.
    unfold make_decision, make_decision_try, _check_critical_patterns.
    cbn [py_get bind dict_lookup]. cbn [String.eqb Ascii.eqb Bool.eqb].
    repeat split; intros Hmissing; now rewrite Hmissing.
  - intros m f -> Hnum Hts Hamount Hmeta.
    assert (Ha : number_of (amount_of m) = Some (Finite (inject_Z 0)))
      by (unfold amount_of; now rewrite (dict_get_missing _ _ _ Hamount)).
    assert (Hm : metadata_of m = VDict []).
    { unfold metadata_of.
      destruct Hmeta as [Hmeta | Hmeta];
        [ now apply dict_get_missing | unfold dict_get; now rewrite Hmeta ]. }
    assert (Hcheck : _check_critical_patterns (VDict m) = Ok false)
      by (rewrite (check_critical_patterns_dict m _ Ha), Hm; reflexivity).
    destruct (ladder_cases payment_id risk_score m f Hnum)
      as [ladder [Htry Hcases]].
    rewrite (dict_get_missing _ _ _ Hts) in Hcases.
    unfold make_decision. rewrite Htry, Hcheck. cbn [bind].
    exists ladder. split; [ reflexivity | exact Hcases ].
Qed.

(** The action and reason of any returned record. *)
Lemma decision_shape
    (self : DecisionEngine) (payment_id risk_score payment_data : pyval) :
  let decision :=
    fst (make_decision self payment_id risk_score payment_data) in
  (exists action reason,
      In (action, reason) decision_table
      /\ action_of decision = Some (VStr action)
      /\ reason_of decision = Some (VStr reason))
  \/ (exists e,
         make_decision_try self payment_id risk_score payment_data = Raise e
         /\ action_of decision = Some (VStr "flag")
         /\ reason_of decision
            = Some (VStr ("Error in decision making: " ++ exc_str e))).
Proof.
  cbv zeta. unfold make_decision.
  destruct payment_data as [ | b | z | g | s | l | m ];
    try (right; eexists; split; [ reflexivity | split; reflexivity ]).
  destruct (number_of risk_score) as [f | ] eqn:Hnum.
  - destruct (ladder_cases payment_id risk_score m f Hnum)
      as [ladder [Htry Hcases]].
    rewrite Htry.
    destruct (_check_critical_patterns (VDict m)) as [[ | ] | e];
      cbn [bind fst].
    + left. exists "flag", "Critical risk pattern detected".
      rewrite action_of_set_action, reason_of_set_action.
      repeat split. cbv. tauto.
    + left.
      destruct Hcases
        as [[_ ->] | [[_ [_ ->]] | [[_ [_ ->]] | [[_ [_ ->]] | [_ ->]]]]];
        do 2 eexists; (split; [ | split; reflexivity ]); cbv; tauto.
    + right. eexists. repeat split.
  - rewrite (make_decision_try_non_number self payment_id risk_score m Hnum).
    right. eexists. repeat split.
Qed.

(** X5: whatever the arguments, the returned record carries the payment id
    and one of the pairs of action and reason of the table, or the flag
    action with the error message; and the reason alone tells the action:
    two records with the same reason have the same action. *)
Theorem decision_reason_identifies_action
    (self : DecisionEngine) (payment_id risk_score payment_data : pyval) :
  let decision :=
    fst (make_decision self payment_id risk_score payment_data) in
  dict_lookup "payment_id" decision = Some payment_id
  /\ ((exists action reason,
          In (action, reason) decision_table
          /\ action_of decision = Some (VStr action)
          /\ reason_of decision = Some (VStr reason))
      \/ (exists e,
             make_decision_try self payment_id risk_score payment_data
             = Raise e
             /\ action_of decision = Some (VStr "flag")
             /\ reason_of decision
                = Some (VStr ("Error in decision making: " ++ exc_str e))))
  /\ (forall (self' : DecisionEngine)
             (payment_id' risk_score' payment_data' : pyval),
         reason_of decision
         = reason_of (fst (make_decision self' payment_id' risk_score'
                             payment_data')) ->
         action_of decision
         = action_of (fst (make_decision self' payment_id' risk_score'
                             payment_data'))).
Proof.
  cbv zeta. split; [ | split ].
  - unfold make_decision.
    destruct payment_data as [ | b | z | g | s | l | m ]; try reflexivity.
    destruct (number_of risk_score) as [f | ] eqn:Hnum.
    + destruct (make_decision_try_numeric self payment_id risk_score m f Hnum)
        as [ladder [Hid [_ [_ Htry]]]].
      rewrite Htry.
      destruct (_check_critical_patterns (VDict m)) as [[ | ] | e];
        cbn [bind fst]; try reflexivity; try exact Hid.
      now rewrite lookup_set_action_other by discriminate.
    + now rewrite (make_decision_try_non_number self payment_id risk_score m Hnum).
  - apply decision_shape.
  - intros self' payment_id' risk_score' payment_data'.
    pose proof (decision_shape self payment_id risk_score payment_data) as S1.
    pose proof (decision_shape self' payment_id' risk_score' payment_data')
      as S2.
    cbv zeta in S1, S2.
    destruct S1 as [[a1 [r1 [T1 [A1 R1]]]] | [e1 [_ [A1 R1]]]];
      destruct S2 as [[a2 [r2 [T2 [A2 R2]]]] | [e2 [_ [A2 R2]]]];
      rewrite A1, A2, R1, R2; intros Hreason.
    + unfold decision_table in T1, T2. cbn [In] in T1, T2.
      repeat match goal with
        | H : _ \/ _ |- _ => destruct H
        | H : False |- _ => contradiction
        | H : (_, _) = (_, _) |- _ => injection H as <- <-
        end;
        first [ reflexivity | discriminate ].
    + unfold decision_table in T1. cbn [In] in T1.
      repeat match goal with
        | H : _ \/ _ |- _ => destruct H
        | H : False |- _ => contradiction
        | H : (_, _) = (_, _) |- _ => injection H as <- <-
        end;
        first [ reflexivity | discriminate ].
    + unfold decision_table in T2. cbn [In] in T2.
      repeat match goal with
        | H : _ \/ _ |- _ => destruct H
        | H : False |- _ => contradiction
        | H : (_, _) = (_, _) |- _ => injection H as <- <-
        end;
        first [ reflexivity | discriminate ].
    + reflexivity.
Qed.

Lemma decide_all_spec
    (self0 : DecisionEngine) (requests : list (pyval * pyval * pyval)) :
  forall self : DecisionEngine,
    fst (decide_all self requests)
    = map (fun '(payment_id, risk_score, payment_data) =>
             fst (make_decision self0 payment_id risk_score payment_data))
          requests
    /\ pending_decisions (snd (decide_all self requests))
       = (pending_decisions self ++ completed_records self0 requests)%list
    /\ config (snd (decide_all self requests)) = config self
    /\ risk_threshold (snd (decide_all self requests)) = risk_threshold self
    /\ contract_address (snd (decide_all self requests))
       = contract_address self.
Proof.
  induction requests as [ | [[payment_id risk_score] payment_data] rest IH];
    intros self.
  - cbn. rewrite app_nil_r. repeat split.
  - cbn [decide_all completed_records flat_map map].
    fold (completed_records self0 rest).
    pose proof (make_decision_try_engine self self0
                  payment_id risk_score payment_data) as H.
    unfold make_decision.
    destruct (make_decision_try self payment_id risk_score payment_data)
      as [[d1 s1] | e1];
      destruct (make_decision_try self0 payment_id risk_score payment_data)
      as [[d2 s2] | e2]; try contradiction.
    + destruct H as [-> [-> _]].
      destruct (IH (append_pending d2 self)) as [I1 [I2 [I3 [I4 I5]]]].
      destruct (decide_all (append_pending d2 self) rest) as [ds s'].
      cbn [fst snd] in *. rewrite I1, I2, I3, I4, I5.
      cbn [append_pending pending_decisions config risk_threshold
             contract_address].
      rewrite <- app_assoc. repeat split.
    + subst e2.
      destruct (IH self) as [I1 [I2 [I3 [I4 I5]]]].
      destruct (decide_all self rest) as [ds s'].
      cbn [fst snd] in *. rewrite I1, I2, I3, I4, I5. repeat split.
Qed.

(** X6: a run of [make_decision] calls after a drain, then one drain.  Each
    call returns what it would return on any engine; the drain delivers
    exactly the records of the calls whose [try] block completed, in call
    order (the records of the error path are returned to the callers but
    never queued); a second drain is empty; configuration, risk_threshold
    and contract address are untouched throughout. *)
Theorem decide_all_then_drain
    (self : DecisionEngine) (requests : list (pyval * pyval * pyval)) :
  let run := decide_all (snd (get_pending_decisions self)) requests in
  let drain := get_pending_decisions (snd run) in
  fst run
  = map (fun '(payment_id, risk_score, payment_data) =>
           fst (make_decision self payment_id risk_score payment_data))
        requests
  /\ fst drain = completed_records self requests
  /\ fst (get_pending_decisions (snd drain)) = []
  /\ config (snd drain) = config self
  /\ risk_threshold (snd drain) = risk_threshold self
  /\ contract_address (snd drain) = contract_address self.
Proof.
  cbv zeta.
  destruct (decide_all_spec self requests (snd (get_pending_decisions self)))
    as [I1 [I2 [I3 [I4 I5]]]].
  unfold get_pending_decisions in *. cbn [fst snd] in *.
  cbn [clear_pending pending_decisions config risk_threshold contract_address
         app] in *.
  repeat split; assumption.
Qed.

(** X7: [make_decision] reads the payment data through three keys only.
    Two dictionaries with the same timestamp, amount and metadata entries
    (whatever their senders, recipients or other keys) give the same record
    and the same engine. *)
Theorem make_decision_reads_three_keys
    (self : DecisionEngine) (payment_id risk_score : pyval) (m m' : pydict) :
  dict_lookup "timestamp" m = dict_lookup "timestamp" m' ->
  dict_lookup "amount" m = dict_lookup "amount" m' ->
  dict_lookup "metadata" m = dict_lookup "metadata" m' ->
  make_decision self payment_id risk_score (VDict m)
  = make_decision self payment_id risk_score (VDict m').
Proof.
  intros Hts Hamount Hmeta.
  unfold make_decision, make_decision_try, _check_critical_patterns.
  cbn [py_get bind]. now rewrite Hts, Hamount, Hmeta.
Qed.


(** ** The keyword search on plain metadata *)

Lemma prefix_before_non_letter (kw a b : string) (c : ascii) :
  all_letters kw = true -> is_letter c = false ->
  prefix kw (a ++ String c b) = prefix kw a.
Proof.
  intros Hkw Hc. revert a.
  induction kw as [ | x kw IH]; intros a.
  - now destruct a.
  - cbn [all_letters] in Hkw. apply andb_true_iff in Hkw.
    destruct Hkw as [Hx Hkw].
    destruct a as [ | y a]; cbn [append prefix].
    + destruct (ascii_dec x c) as [-> | Hne]; [ congruence | reflexivity ].
    + destruct (ascii_dec x y); [ now apply IH | reflexivity ].
Qed.

Lemma str_contains_empty (kw : string) :
  kw <> EmptyString -> str_contains kw EmptyString = false.
Proof. destruct kw; [ congruence | reflexivity ]. Qed.

(** A run of letters cannot straddle a character that is not a letter. *)
Lemma str_contains_split (kw a b : string) (c : ascii) :
  all_letters kw = true -> kw <> EmptyString -> is_letter c = false ->
  str_contains kw (a ++ String c b)
  = str_contains kw a || str_contains kw b.
Proof.
  intros Hkw Hne Hc.
  induction a as [ | y a IH].
  - rewrite (str_contains_empty kw Hne). cbn [orb].
    pose proof (prefix_before_non_letter kw EmptyString b c Hkw Hc) as P.
    change (EmptyString ++ String c b) with (String c b) in *.
    cbn [str_contains]. rewrite P.
    destruct kw; [ congruence | reflexivity ].
  - change (String y a ++ String c b) with (String y (a ++ String c b)).
    cbn [str_contains]. rewrite IH.
    change (String y (a ++ String c b)) with (String y a ++ String c b).
    rewrite (prefix_before_non_letter kw (String y a) b c Hkw Hc).
    now rewrite orb_assoc.
Qed.

Lemma repr_char_plain (quote c : ascii) :
  quote = squote \/ quote = dquote ->
  is_plain c = true -> repr_char quote c = String c EmptyString.
Proof.
  intros [-> | ->];
    destruct c as [[] [] [] [] [] [] [] []]; vm_compute; congruence.
Qed.

Lemma repr_chars_plain (quote : ascii) (s : string) :
  quote = squote \/ quote = dquote ->
  all_plain s = true -> repr_chars quote s = s.
Proof.
  intros Hq. induction s as [ | c s IH]; cbn [repr_chars all_plain];
    [ reflexivity | ].
  intros H. apply andb_true_iff in H. destruct H as [Hc Hs].
  now rewrite (repr_char_plain quote c Hq Hc), (IH Hs).
Qed.

(** The keyword search sees a plain string through its [repr] as it is. *)
Lemma str_contains_lower_repr_str (kw s : string) :
  all_letters kw = true -> kw <> EmptyString -> all_plain s = true ->
  str_contains kw (lower (repr_str s)) = str_contains kw (lower s).
Proof.
  intros Hkw Hne Hs. unfold repr_str.
  set (quote := if has_char squote s && negb (has_char dquote s)
                then dquote else squote).
  assert (Hq : quote = squote \/ quote = dquote)
    by (subst quote; destruct (_ && _); auto).
  clearbody quote.
  rewrite (repr_chars_plain quote s Hq Hs).
  assert (Hl : lower_char quote = quote /\ is_letter quote = false)
    by (destruct Hq as [-> | ->]; split; reflexivity).
  destruct Hl as [Hl Hnl].
  cbn [lower]. rewrite lower_app. cbn [lower]. rewrite Hl.
  change (String quote (lower s ++ String quote EmptyString))
    with (EmptyString ++ String quote (lower s ++ String quote EmptyString)).
  rewrite (str_contains_split kw _ _ quote Hkw Hne Hnl).
  rewrite (str_contains_split kw _ _ quote Hkw Hne Hnl).
  rewrite (str_contains_empty kw Hne). cbn [orb]. apply orb_false_r.
Qed.

Lemma str_contains_lower_entry (kw k v : string) :
  all_letters kw = true -> kw <> EmptyString ->
  all_plain k = true -> all_plain v = true ->
  str_contains kw (lower (repr_str k ++ ": " ++ repr_str v))
  = str_contains kw (lower k) || str_contains kw (lower v).
Proof.
  intros Hkw Hne Hk Hv.
  rewrite lower_app.
  change (lower (": " ++ repr_str v))
    with (String ":" (EmptyString ++ String " " (lower (repr_str v)))).
  rewrite (str_contains_split kw _ _ ":" Hkw Hne eq_refl).
  rewrite (str_contains_split kw _ _ " " Hkw Hne eq_refl).
  rewrite (str_contains_empty kw Hne). cbn [orb].
  now rewrite !str_contains_lower_repr_str.
Qed.

Lemma str_contains_lower_join (kw : string) (parts : list string) :
  all_letters kw = true -> kw <> EmptyString ->
  str_contains kw (lower (join ", " parts))
  = existsb (fun p => str_contains kw (lower p)) parts.
Proof.
  intros Hkw Hne.
  induction parts as [ | p rest IH].
  - apply str_contains_empty. exact Hne.
  - destruct rest as [ | q rest].
    + cbn [join existsb]. now rewrite orb_false_r.
    + change (join ", " (p :: q :: rest))
        with (p ++ ", " ++ join ", " (q :: rest)).
      rewrite lower_app.
      change (lower (", " ++ join ", " (q :: rest)))
        with (String ","
                (EmptyString
                 ++ String " " (lower (join ", " (q :: rest))))).
      rewrite (str_contains_split kw _ _ "," Hkw Hne eq_refl).
      rewrite (str_contains_split kw _ _ " " Hkw Hne eq_refl).
      rewrite (str_contains_empty kw Hne). cbn [orb].
      rewrite IH. reflexivity.
Qed.

Lemma py_repr_flat_metadata (entries : list (string * string)) :
  py_repr (flat_metadata entries)
  = "{" ++ join ", "
             (map (fun '(k, v) => repr_str k ++ ": " ++ repr_str v) entries)
        ++ "}".
Proof.
  unfold flat_metadata. rewrite py_repr_dict, map_map.
  do 3 f_equal. apply map_ext. now intros [k v].
Qed.

Lemma str_contains_flat_metadata (kw : string) (entries : list (string * string)) :
  all_letters kw = true -> kw <> EmptyString ->
  (forall k v, In (k, v) entries ->
               all_plain k = true /\ all_plain v = true) ->
  str_contains kw (lower (py_str (flat_metadata entries)))
  = existsb (fun '(k, v) =>
               str_contains kw (lower k) || str_contains kw (lower v))
            entries.
Proof.
  intros Hkw Hne Hplain.
  change (py_str (flat_metadata entries))
    with (py_repr (flat_metadata entries)).
  rewrite py_repr_flat_metadata.
  set (body := join ", " _).
  change (lower ("{" ++ body ++ "}"))
    with (EmptyString ++ String "{" (lower (body ++ "}"))).
  rewrite (str_contains_split kw _ _ "{" Hkw Hne eq_refl).
  rewrite (str_contains_empty kw Hne). cbn [orb].
  rewrite lower_app. change (lower "}") with (String "}" EmptyString).
  rewrite (str_contains_split kw _ _ "}" Hkw Hne eq_refl).
  rewrite (str_contains_empty kw Hne), orb_false_r.
  subst body. rewrite (str_contains_lower_join kw _ Hkw Hne).
  induction entries as [ | [k v] rest IH]; [ reflexivity | ].
  cbn [map existsb].
  destruct (Hplain k v (or_introl eq_refl)) as [Hk Hv].
  rewrite (str_contains_lower_entry kw k v Hkw Hne Hk Hv).
  rewrite IH; [ reflexivity | ].
  intros k' v' Hin. apply Hplain. now right.
Qed.

Lemma keyword_nonempty_letters (kw : string) :
  In kw suspicious_keywords ->
  all_letters kw = true /\ kw <> EmptyString.
Proof.
  intros [<- | [<- | [<- | [<- | []]]]]; split;
    first [ reflexivity | discriminate ].
Qed.

(** X8: on metadata that maps plain strings to plain strings (printable
    ASCII without quotes and backslash) and an amount that is not above the
    cutoff, the critical check answers true exactly when a keyword occurs,
    letter case aside, inside one of the keys or one of the values: no
    keyword-free entry is flagged and no keyword is missed. *)
Theorem plain_metadata_flagged_iff
    (m : pydict) (entries : list (string * string)) (a : pyfloat) :
  number_of (amount_of m) = Some a ->
  ~ above a 100000 ->
  metadata_of m = flat_metadata entries ->
  (forall k v, In (k, v) entries ->
               all_plain k = true /\ all_plain v = true) ->
  (_check_critical_patterns (VDict m) = Ok true
   <-> exists k v keyword,
        In (k, v) entries
        /\ In keyword suspicious_keywords
        /\ (occurs_in keyword (lower k) \/ occurs_in keyword (lower v))).
Proof.
  intros Hamount Hsmall Hmeta Hplain.
  rewrite (check_critical_patterns_true_iff m a Hamount), Hmeta.
  unfold mentions_keyword. split.
  - intros [Habove | [kw [Hin Hocc]]]; [ contradiction | ].
    destruct (keyword_nonempty_letters kw Hin) as [Hkw Hne].
    apply str_contains_iff in Hocc.
    rewrite (str_contains_flat_metadata kw entries Hkw Hne Hplain) in Hocc.
    apply existsb_exists in Hocc. destruct Hocc as [[k v] [Hentry Hocc]].
    exists k, v, kw. repeat split; try assumption.
    apply orb_true_iff in Hocc.
    destruct Hocc as [H | H]; apply str_contains_iff in H; auto.
  - intros [k [v [kw [Hentry [Hin Hocc]]]]]. right.
    destruct (keyword_nonempty_letters kw Hin) as [Hkw Hne].
    exists kw. split; [ exact Hin | ].
    apply str_contains_iff.
    rewrite (str_contains_flat_metadata kw entries Hkw Hne Hplain).
    apply existsb_exists. exists (k, v). split; [ exact Hentry | ].
    apply orb_true_iff.
    destruct Hocc as [H | H]; apply str_contains_iff in H; auto.
Qed.


(** ** The shape of the queued records *)

Lemma completed_record_complete
    (self : DecisionEngine) (payment_id risk_score payment_data : pyval)
    (decision : pydict) (self' : DecisionEngine) :
  make_decision_try self payment_id risk_score payment_data
  = Ok (decision, self') ->
  complete_record decision /\ self' = append_pending decision self.
Proof.
  destruct payment_data as [ | b | z | g | s | l | m ]; try discriminate.
  destruct (number_of risk_score) as [f | ] eqn:Hnum.
  - destruct (ladder_cases payment_id risk_score m f Hnum)
      as [ladder [Htry Hcases]].
    rewrite Htry.
    destruct (_check_critical_patterns (VDict m)) as [[ | ] | e];
      cbn [bind]; [ | | discriminate ];
      intros [= <- <-]; (split; [ | reflexivity ]);
      destruct Hcases
        as [[_ ->] | [[_ [_ ->]] | [[_ [_ ->]] | [[_ [_ ->]] | [_ ->]]]]];
      unfold complete_record; do 5 eexists;
      repeat (split; [ reflexivity | ]);
      (split; [ cbv; tauto | reflexivity ]).
  - rewrite (make_decision_try_non_number self payment_id risk_score m Hnum).
    discriminate.
Qed.

(** X9: the pending queue only ever holds complete records.  If every
    queued record has the five keys payment_id, risk_score, timestamp,
    action and reason, with an action among the four, then so has every
    record queued after any [make_decision] call (the three-key record of
    the error path is returned but not queued), and so has everything a
    drain returns. *)
Theorem pending_queue_holds_complete_records
    (self : DecisionEngine) (payment_id risk_score payment_data : pyval) :
  Forall complete_record (pending_decisions self) ->
  Forall complete_record
    (pending_decisions
       (snd (make_decision self payment_id risk_score payment_data)))
  /\ Forall complete_record
       (fst (get_pending_decisions
               (snd (make_decision self payment_id risk_score payment_data))))
  /\ (forall e,
         make_decision_try self payment_id risk_score payment_data = Raise e ->
         ~ complete_record
             (fst (make_decision self payment_id risk_score payment_data))).
Proof.
  intros Hqueue.
  assert (Hafter : Forall complete_record
                     (pending_decisions
                        (snd (make_decision self payment_id risk_score
                                payment_data)))).
  { unfold make_decision.
    destruct (make_decision_try self payment_id risk_score payment_data)
      as [[d s'] | e] eqn:Htry; cbn [snd]; [ | exact Hqueue ].
    destruct (completed_record_complete _ _ _ _ _ _ Htry) as [Hd ->].
    cbn [append_pending pending_decisions].
    apply Forall_app. split; [ exact Hqueue | ].
    constructor; [ exact Hd | constructor ]. }
  split; [ exact Hafter | ]. split; [ exact Hafter | ].
  intros e Htry. unfold make_decision. rewrite Htry. cbn [fst].
  intros [pid [rs [ts [a [r [_ [Hscore _]]]]]]]. discriminate Hscore.
Qed.

End Engine.

(** ** The risk aggregator *)

Lemma weighted_sum_unfold (w : RiskWeights) (fv : FactorVector) :
  (weighted_sum w fv
   == w amount_anomaly * fv amount_anomaly
      + w velocity * fv velocity
      + w address_reputation * fv address_reputation
      + w pattern_matching * fv pattern_matching
      + w time_based * fv time_based
      + w metadata_analysis * fv metadata_analysis)%Q.
Proof. unfold weighted_sum, factors. cbn [fold_right]. ring. Qed.

Lemma total_weight_unfold (w : RiskWeights) :
  (total_weight w
   == w amount_anomaly + w velocity + w address_reputation
      + w pattern_matching + w time_based + w metadata_analysis)%Q.
Proof. unfold total_weight, factors. cbn [fold_right]. ring. Qed.

Lemma calculate_risk_score_valid (w : RiskWeights) (fv : FactorVector) :
  (forall k, 0 <= fv k <= 1)%Q ->
  calculate_risk_score w fv
  = Some (100 * (weighted_sum w fv / total_weight w))%Q.
Proof.
  intros Hfv. unfold calculate_risk_score.
  replace (forallb (fun k => in_unit_interval (fv k)) factors) with true;
    [ reflexivity | ].
  symmetry. apply forallb_forall. intros k _.
  unfold in_unit_interval. apply andb_true_iff.
  split; apply Qle_bool_iff; apply Hfv.
Qed.

Lemma Qmult_le_nonneg_l (z x y : Q) :
  (0 <= z)%Q -> (x <= y)%Q -> (z * x <= z * y)%Q.
Proof.
  intros Hz Hxy. rewrite (Qmult_comm z x), (Qmult_comm z y).
  now apply Qmult_le_compat_r.
Qed.

Lemma weighted_sum_monotone (w : RiskWeights) (fv gv : FactorVector) :
  (forall k, 0 <= w k)%Q ->
  (forall k, fv k <= gv k)%Q ->
  (weighted_sum w fv <= weighted_sum w gv)%Q.
Proof.
  intros Hw Hle. rewrite !weighted_sum_unfold.
  repeat apply Qplus_le_compat; apply Qmult_le_nonneg_l; auto.
Qed.

Lemma with_factor_in_range (k : factor) (x : Q) (fv : FactorVector) :
  (forall k', 0 <= fv k' <= 1)%Q -> (0 <= x <= 1)%Q ->
  (forall k', 0 <= with_factor k x fv k' <= 1)%Q.
Proof.
  intros Hfv Hx k'. unfold with_factor.
  destruct (factor_eqb k k'); [ exact Hx | apply Hfv ].
Qed.

(** C7: [calculate_risk_score] sends the all-zero FactorVector to 0 and the
    all-one FactorVector to 100, and raising one factor while the other
    five are held fixed never lowers the score. *)
Theorem calculate_risk_score_extremes_and_monotone (w : RiskWeights) :
  (forall k, 0 <= w k)%Q ->
  (0 < total_weight w)%Q ->
  (forall fv : FactorVector,
      (forall k, fv k == 0)%Q ->
      exists s, calculate_risk_score w fv = Some s /\ (s == 0)%Q)
  /\ (forall fv : FactorVector,
         (forall k, fv k == 1)%Q ->
         exists s, calculate_risk_score w fv = Some s /\ (s == 100)%Q)
  /\ (forall (k : factor) (fv : FactorVector) (a b : Q),
         (forall k', 0 <= fv k' <= 1)%Q ->
         (0 <= a)%Q -> (a <= b)%Q -> (b <= 1)%Q ->
         exists sa sb,
           calculate_risk_score w (with_factor k a fv) = Some sa
           /\ calculate_risk_score w (with_factor k b fv) = Some sb
           /\ (sa <= sb)%Q).
Proof.
  intros Hw Htotal. repeat split.
  - intros fv Hzero. eexists. split.
    + apply calculate_risk_score_valid. intros k. rewrite (Hzero k). lra.
    + rewrite weighted_sum_unfold.
      rewrite (Hzero amount_anomaly), (Hzero velocity),
        (Hzero address_reputation), (Hzero pattern_matching),
        (Hzero time_based), (Hzero metadata_analysis).
      unfold Qdiv. ring.
  - intros fv Hone. eexists. split.
    + apply calculate_risk_score_valid. intros k. rewrite (Hone k). lra.
    + assert (E : (weighted_sum w fv == total_weight w)%Q).
      { rewrite weighted_sum_unfold, total_weight_unfold.
        rewrite (Hone amount_anomaly), (Hone velocity),
          (Hone address_reputation), (Hone pattern_matching),
          (Hone time_based), (Hone metadata_analysis).
        ring. }
      rewrite E. field. intros Hz. rewrite Hz in Htotal. lra.
  - intros k fv a b Hfv Ha Hab Hb.
    exists (100 * (weighted_sum w (with_factor k a fv) / total_weight w))%Q,
           (100 * (weighted_sum w (with_factor k b fv) / total_weight w))%Q.
    split; [ | split ].
    + apply calculate_risk_score_valid, with_factor_in_range; auto.
      split; [ exact Ha | now apply Qle_trans with b ].
    + apply calculate_risk_score_valid, with_factor_in_range; auto.
      split; [ now apply Qle_trans with a | exact Hb ].
    + apply Qmult_le_nonneg_l; [ lra | ].
      unfold Qdiv. apply Qmult_le_compat_r.
      * apply weighted_sum_monotone; [ exact Hw | ].
        intros k'. unfold with_factor.
        destruct (factor_eqb k k'); [ exact Hab | apply Qle_refl ].
      * apply Qinv_le_0_compat. now apply Qlt_le_weak.
Qed.

(** ** The theorems at concrete inputs *)

Ltac qbound := repeat split; vm_compute; first [ reflexivity | discriminate ].

Lemma init_sample_engine : __init__ sample_config = Ok sample_engine.
Proof. reflexivity. Qed.

Lemma make_decision_threshold_ladder_witness :
  number_of (VFloat (Finite 65)) = Some (Finite 65)
  /\ (0 <= 65 <= 100)%Q
  /\ _check_critical_patterns repr_float_whole (VDict invoice_payment) = Ok false
  /\ ((60 <= 65 < 80)%Q ->
      fst (make_decision repr_float_whole sample_engine (VStr "0xab12")
             (VFloat (Finite 65)) (VDict invoice_payment))
      = [("payment_id", VStr "0xab12"); ("risk_score", VFloat (Finite 65));
         ("timestamp", VStr "2024-01-01T14:00:00");
         ("action", VStr "enhance_privacy");
         ("reason", VStr "High risk - enhanced privacy measures applied");
         ("privacy_level", VStr "high")]).
Proof.
  assert (H1 : number_of (VFloat (Finite 65)) = Some (Finite 65))
    by reflexivity.
  assert (H2 : (0 <= 65 <= 100)%Q) by qbound.
  assert (H3 : _check_critical_patterns repr_float_whole
                 (VDict invoice_payment) = Ok false) by reflexivity.
  split; [ exact H1 | ]. split; [ exact H2 | ]. split; [ exact H3 | ].
  exact (proj1 (proj2 (proj2 (proj2
           (make_decision_threshold_ladder repr_float_whole sample_engine
              (VStr "0xab12") (VFloat (Finite 65)) invoice_payment 65
              H1 H2 H3))))).
Defined.

Lemma critical_override_forces_flag_witness :
  number_of (VFloat (Finite 10)) = Some (Finite 10)
  /\ number_of (amount_of large_payment) = Some (Finite 250000)
  /\ (above (Finite 250000) 100000
      \/ mentions_keyword repr_float_whole (metadata_of large_payment))
  /\ action_of (fst (make_decision repr_float_whole sample_engine
                       (VStr "0xab12") (VFloat (Finite 10))
                       (VDict large_payment)))
     = Some (VStr "flag")
  /\ reason_of (fst (make_decision repr_float_whole sample_engine
                       (VStr "0xab12") (VFloat (Finite 10))
                       (VDict large_payment)))
     = Some (VStr "Critical risk pattern detected").
Proof.
  assert (H1 : number_of (VFloat (Finite 10)) = Some (Finite 10))
    by reflexivity.
  assert (H2 : number_of (amount_of large_payment) = Some (Finite 250000))
    by reflexivity.
  assert (H3 : above (Finite 250000) 100000
               \/ mentions_keyword repr_float_whole (metadata_of large_payment))
    by (left; qbound).
  split; [ exact H1 | ]. split; [ exact H2 | ]. split; [ exact H3 | ].
  pose proof (critical_override_forces_flag repr_float_whole sample_engine
                (VStr "0xab12") (VFloat (Finite 10)) large_payment
                (Finite 10) (Finite 250000) H1 H2 H3) as H.
  exact (conj (proj1 H) (proj1 (proj2 H))).
Defined.

Lemma make_decision_never_raises_witness :
  make_decision repr_float_whole sample_engine (VStr "0xab12")
    (VStr "high") (VDict invoice_payment)
  = ([("payment_id", VStr "0xab12");
      ("action", VStr "flag");
      ("reason",
       VStr "Error in decision making: '<' not supported between instances of 'str' and 'int'")],
     sample_engine)
  /\ make_decision repr_float_whole sample_engine (VStr "0xab12")
       (VInt 10) (VList [])
     = ([("payment_id", VStr "0xab12");
         ("action", VStr "flag");
         ("reason",
          VStr "Error in decision making: 'list' object has no attribute 'get'")],
        sample_engine)
  /\ number_of (VInt 45) = Some (Finite 45)
  /\ dict_lookup "timestamp" [] = None
  /\ dict_lookup "amount" [] = None
  /\ (dict_lookup "metadata" [] = None
      \/ dict_lookup "metadata" [] = Some (VDict []))
  /\ exists decision : pydict,
      make_decision repr_float_whole sample_engine (VStr "0xab12")
        (VInt 45) (VDict [])
      = (decision, append_pending decision sample_engine)
      /\ ((below (Finite 45) 20
           /\ decision
              = ladder_record (VStr "0xab12") (VInt 45) VNone
                  "approve" "Very low risk transaction")
          \/ (at_least (Finite 45) 20 /\ below (Finite 45) 40
              /\ decision
                 = ladder_record (VStr "0xab12") (VInt 45) VNone
                     "approve" "Low risk transaction")
          \/ (at_least (Finite 45) 40 /\ below (Finite 45) 60
              /\ decision
                 = ladder_record (VStr "0xab12") (VInt 45) VNone
                     "verify_zk_proof"
                     "Medium risk - additional verification required")
          \/ (at_least (Finite 45) 60 /\ below (Finite 45) 80
              /\ decision
                 = (ladder_record (VStr "0xab12") (VInt 45) VNone
                      "enhance_privacy"
                      "High risk - enhanced privacy measures applied"
                    ++ [("privacy_level", VStr "high")])%list)
          \/ ((at_least (Finite 45) 80 \/ Finite 45 = NaN)
              /\ decision
                 = ladder_record (VStr "0xab12") (VInt 45) VNone
                     "flag" "Very high risk - flagged for manual review")).
Proof.
  assert (H1 : number_of (VInt 45) = Some (Finite 45)) by reflexivity.
  assert (H2 : dict_lookup "timestamp" [] = None) by reflexivity.
  assert (H3 : dict_lookup "amount" [] = None) by reflexivity.
  assert (H4 : dict_lookup "metadata" [] = None
               \/ dict_lookup "metadata" [] = Some (VDict []))
    by (left; reflexivity).
  split.
  { exact (proj1 (make_decision_never_raises repr_float_whole sample_engine
                    (VStr "0xab12") (VStr "high") (VDict invoice_payment))). }
  split.
  { exact (proj1 (make_decision_never_raises repr_float_whole sample_engine
                    (VStr "0xab12") (VInt 10) (VList []))). }
  split; [ exact H1 | ]. split; [ exact H2 | ]. split; [ exact H3 | ].
  split; [ exact H4 | ].
  exact (proj2 (proj2 (make_decision_never_raises repr_float_whole
                         sample_engine (VStr "0xab12") (VInt 45) (VDict [])))
           [] (Finite 45) eq_refl H1 H2 H3 H4).
Defined.

Lemma make_decision_appends_returned_record_witness :
  let decision : pydict :=
    [("payment_id", VStr "0xab12"); ("risk_score", VInt 45);
     ("timestamp", VStr "2024-01-01T14:00:00");
     ("action", VStr "verify_zk_proof");
     ("reason", VStr "Medium risk - additional verification required")] in
  let r := (decision, append_pending decision sample_engine) in
  make_decision_try repr_float_whole sample_engine (VStr "0xab12") (VInt 45)
    (VDict invoice_payment) = Ok r
  /\ pending_decisions
       (snd (make_decision repr_float_whole sample_engine (VStr "0xab12")
               (VInt 45) (VDict invoice_payment)))
     = (pending_decisions sample_engine
        ++ [fst (make_decision repr_float_whole sample_engine (VStr "0xab12")
                   (VInt 45) (VDict invoice_payment))])%list.
Proof.
  intros decision r.
  assert (H1 : make_decision_try repr_float_whole sample_engine
                 (VStr "0xab12") (VInt 45) (VDict invoice_payment) = Ok r)
    by reflexivity.
  split; [ exact H1 | ].
  exact (proj1 (proj2 (make_decision_appends_returned_record repr_float_whole
                         sample_engine (VStr "0xab12") (VInt 45)
                         (VDict invoice_payment) r H1))).
Defined.

Lemma critical_override_keeps_privacy_level_witness :
  number_of (VFloat (Finite 65)) = Some (Finite 65)
  /\ (60 <= 65 < 80)%Q
  /\ _check_critical_patterns repr_float_whole (VDict large_payment) = Ok true
  /\ fst (make_decision repr_float_whole sample_engine (VStr "0xab12")
            (VFloat (Finite 65)) (VDict large_payment))
     = [("payment_id", VStr "0xab12"); ("risk_score", VFloat (Finite 65));
        ("timestamp", dict_get large_payment "timestamp" VNone);
        ("action", VStr "flag");
        ("reason", VStr "Critical risk pattern detected");
        ("privacy_level", VStr "high")].
Proof.
  assert (H1 : number_of (VFloat (Finite 65)) = Some (Finite 65))
    by reflexivity.
  assert (H2 : (60 <= 65 < 80)%Q) by qbound.
  assert (H3 : _check_critical_patterns repr_float_whole
                 (VDict large_payment) = Ok true) by reflexivity.
  split; [ exact H1 | ]. split; [ exact H2 | ]. split; [ exact H3 | ].
  exact (critical_override_keeps_privacy_level repr_float_whole sample_engine
           (VStr "0xab12") (VFloat (Finite 65)) large_payment 65 H1 H2 H3).
Defined.

Lemma make_decision_no_range_validation_witness :
  number_of (VFloat (Finite 250)) = Some (Finite 250)
  /\ at_least (Finite 250) 80
  /\ action_of (fst (make_decision repr_float_whole sample_engine
                       (VStr "0xab12") (VFloat (Finite 250))
                       (VDict invoice_payment)))
     = Some (VStr "flag").
Proof.
  assert (H1 : number_of (VFloat (Finite 250)) = Some (Finite 250))
    by reflexivity.
  assert (H2 : at_least (Finite 250) 80) by qbound.
  split; [ exact H1 | ]. split; [ exact H2 | ].
  exact (proj2 (make_decision_no_range_validation repr_float_whole
                  sample_engine (VStr "0xab12") (VFloat (Finite 250))
                  (Finite 250) H1)
           (VDict invoice_payment) H2).
Defined.

Lemma keyword_check_is_substring_search_witness :
  number_of (amount_of suspicious_payment) = Some (Finite 5)
  /\ (_check_critical_patterns repr_float_whole (VDict suspicious_payment)
      = Ok true
      <-> above (Finite 5) 100000
          \/ mentions_keyword repr_float_whole (metadata_of suspicious_payment)).
Proof.
  assert (H1 : number_of (amount_of suspicious_payment) = Some (Finite 5))
    by reflexivity.
  split; [ exact H1 | ].
  exact (proj1 (keyword_check_is_substring_search repr_float_whole)
           suspicious_payment (Finite 5) H1).
Defined.

Lemma sample_weights_nonneg : forall k, (0 <= sample_weights k)%Q.
Proof. intros k; destruct k; vm_compute; discriminate. Defined.

Lemma calculate_risk_score_extremes_and_monotone_witness :
  (forall k, 0 <= sample_weights k)%Q
  /\ (0 < total_weight sample_weights)%Q
  /\ (exists s,
         calculate_risk_score sample_weights (fun _ => 0%Q) = Some s
         /\ (s == 0)%Q)
  /\ (exists s,
         calculate_risk_score sample_weights (fun _ => 1%Q) = Some s
         /\ (s == 100)%Q).
Proof.
  assert (H2 : (0 < total_weight sample_weights)%Q) by (vm_compute; reflexivity).
  split; [ exact sample_weights_nonneg | ]. split; [ exact H2 | ].
  pose proof (calculate_risk_score_extremes_and_monotone sample_weights
                sample_weights_nonneg H2) as H.
  split.
  - exact (proj1 H (fun _ => 0%Q) (fun _ => Qeq_refl 0)).
  - exact (proj1 (proj2 H) (fun _ => 1%Q) (fun _ => Qeq_refl 1)).
Defined.

(** ** Worked examples *)

(** A negative score is approved and a score above 100 is flagged. *)
Example negative_score_approved :
  action_of (fst (make_decision repr_float_whole sample_engine (VStr "0xab12")
                    (VInt (-5)) (VDict invoice_payment)))
  = Some (VStr "approve").
Proof. reflexivity. Qed.

Example nan_score_flagged :
  fst (make_decision repr_float_whole sample_engine (VStr "0xab12")
         (VFloat NaN) (VDict invoice_payment))
  = [("payment_id", VStr "0xab12"); ("risk_score", VFloat NaN);
     ("timestamp", VStr "2024-01-01T14:00:00");
     ("action", VStr "flag");
     ("reason", VStr "Very high risk - flagged for manual review")].
Proof. reflexivity. Qed.

(** A score that is not a number raises in the ladder; the record of the
    [except] branch has three keys and is not queued. *)
Example string_score_caught :
  make_decision repr_float_whole sample_engine (VStr "0xab12")
    (VStr "high") (VDict invoice_payment)
  = ([("payment_id", VStr "0xab12");
      ("action", VStr "flag");
      ("reason",
       VStr "Error in decision making: '<' not supported between instances of 'str' and 'int'")],
     sample_engine).
Proof. reflexivity. Qed.

Example missing_payment_data_caught :
  make_decision repr_float_whole sample_engine (VStr "0xab12")
    (VInt 10) VNone
  = ([("payment_id", VStr "0xab12");
      ("action", VStr "flag");
      ("reason",
       VStr "Error in decision making: 'NoneType' object has no attribute 'get'")],
     sample_engine).
Proof. reflexivity. Qed.

(** The string form that is searched, for the metadata of the test suite. *)
Example metadata_string_form :
  lower (py_str repr_float_whole
           (VDict [("purpose", VStr "invoice payment");
                   ("invoice_id", VStr "12345")]))
  = "{'purpose': 'invoice payment', 'invoice_id': '12345'}".
Proof. reflexivity. Qed.

(** The search runs on the [repr]: a carriage return followed by [ug] is
    written as backslash, r, u, g and so holds the keyword [rug]. *)
Example escape_spells_keyword :
  _check_critical_patterns repr_float_whole
    (VDict [("metadata",
             VDict [("note", VStr (String (ascii_of_N 13) "ug"))])])
  = Ok true.
Proof. reflexivity. Qed.

(** Two decisions, then a drain: both come back in order, once. *)
Example two_decisions_then_drain :
  let e1 := snd (make_decision repr_float_whole sample_engine (VStr "0x01")
                   (VInt 10) (VDict invoice_payment)) in
  let e2 := snd (make_decision repr_float_whole e1 (VStr "0x02")
                   (VInt 90) (VDict invoice_payment)) in
  map action_of (fst (get_pending_decisions e2))
  = [Some (VStr "approve"); Some (VStr "flag")]
  /\ fst (get_pending_decisions (snd (get_pending_decisions e2))) = [].
Proof. split; reflexivity. Qed.

Example sample_score :
  exists s,
    calculate_risk_score sample_weights
      (fun k =>
         match k with
         | amount_anomaly => 3 # 10
         | velocity => 2 # 10
         | address_reputation => 4 # 10
         | pattern_matching => 1 # 10
         | time_based => 2 # 10
         | metadata_analysis => 1 # 10
         end) = Some s
    /\ (s == 24)%Q.
Proof. eexists. split; [ reflexivity | reflexivity ]. Qed.

(** ** The further properties at concrete inputs *)

Lemma ladder_action_iff_witness :
  number_of (VInt 45) = Some (Finite 45)
  /\ _check_critical_patterns repr_float_whole (VDict invoice_payment)
     = Ok false
  /\ (action_of (fst (make_decision repr_float_whole sample_engine
                        (VStr "0xab12") (VInt 45) (VDict invoice_payment)))
      = Some (VStr "verify_zk_proof")
      <-> at_least (Finite 45) 40 /\ below (Finite 45) 60).
Proof.
  assert (H1 : number_of (VInt 45) = Some (Finite 45)) by reflexivity.
  assert (H2 : _check_critical_patterns repr_float_whole
                 (VDict invoice_payment) = Ok false) by reflexivity.
  split; [ exact H1 | ]. split; [ exact H2 | ].
  exact (proj1 (proj2 (ladder_action_iff repr_float_whole sample_engine
                         (VStr "0xab12") (VInt 45) invoice_payment
                         (Finite 45) H1 H2))).
Defined.

Lemma privacy_level_iff_witness :
  number_of (VFloat (Finite 65)) = Some (Finite 65)
  /\ number_of (amount_of large_payment) = Some (Finite 250000)
  /\ (at_least (Finite 65) 60 /\ below (Finite 65) 80 ->
      dict_lookup "privacy_level"
        (fst (make_decision repr_float_whole sample_engine (VStr "0xab12")
                (VFloat (Finite 65)) (VDict large_payment)))
      = Some (VStr "high")).
Proof.
  assert (H1 : number_of (VFloat (Finite 65)) = Some (Finite 65))
    by reflexivity.
  assert (H2 : number_of (amount_of large_payment) = Some (Finite 250000))
    by reflexivity.
  split; [ exact H1 | ]. split; [ exact H2 | ].
  exact (proj1 (privacy_level_iff repr_float_whole sample_engine
                  (VStr "0xab12") (VFloat (Finite 65)) large_payment
                  (Finite 65) (Finite 250000) H1 H2)).
Defined.

Lemma ladder_severity_monotone_witness :
  number_of (VInt 10) = Some (Finite 10)
  /\ number_of (VInt 90) = Some (Finite 90)
  /\ (10 <= 90)%Q
  /\ (severity (action_of (fst (make_decision repr_float_whole sample_engine
                                  (VStr "0xab12") (VInt 10)
                                  (VDict invoice_payment))))
      <= severity (action_of (fst (make_decision repr_float_whole sample_engine
                                     (VStr "0xab12") (VInt 90)
                                     (VDict invoice_payment)))))%nat.
Proof.
  assert (H1 : number_of (VInt 10) = Some (Finite 10)) by reflexivity.
  assert (H2 : number_of (VInt 90) = Some (Finite 90)) by reflexivity.
  assert (H3 : (10 <= 90)%Q) by qbound.
  split; [ exact H1 | ]. split; [ exact H2 | ]. split; [ exact H3 | ].
  exact (ladder_severity_monotone repr_float_whole sample_engine
           (VStr "0xab12") (VInt 10) (VInt 90) (VDict invoice_payment)
           10 90 H1 H2 H3).
Defined.

Lemma decision_reason_identifies_action_witness :
  reason_of (fst (make_decision repr_float_whole sample_engine (VStr "0x01")
                    (VInt 10) (VDict large_payment)))
  = reason_of (fst (make_decision repr_float_whole sample_engine (VStr "0x02")
                      (VInt 70) (VDict suspicious_payment)))
  /\ action_of (fst (make_decision repr_float_whole sample_engine (VStr "0x01")
                       (VInt 10) (VDict large_payment)))
     = action_of (fst (make_decision repr_float_whole sample_engine
                         (VStr "0x02") (VInt 70) (VDict suspicious_payment))).
Proof.
  assert (H1 : reason_of (fst (make_decision repr_float_whole sample_engine
                                 (VStr "0x01") (VInt 10)
                                 (VDict large_payment)))
               = reason_of (fst (make_decision repr_float_whole sample_engine
                                   (VStr "0x02") (VInt 70)
                                   (VDict suspicious_payment))))
    by reflexivity.
  split; [ exact H1 | ].
  exact (proj2 (proj2 (decision_reason_identifies_action repr_float_whole
                         sample_engine (VStr "0x01") (VInt 10)
                         (VDict large_payment)))
           sample_engine (VStr "0x02") (VInt 70) (VDict suspicious_payment)
           H1).
Defined.

Lemma make_decision_reads_three_keys_witness :
  let other : pydict :=
    [("recipient_hash", VStr "0xabcdef");
     ("timestamp", VStr "2024-01-01T14:00:00");
     ("metadata", VDict [("purpose", VStr "invoice payment");
                         ("invoice_id", VStr "12345")]);
     ("amount", VFloat (Finite 100))] in
  dict_lookup "timestamp" invoice_payment = dict_lookup "timestamp" other
  /\ dict_lookup "amount" invoice_payment = dict_lookup "amount" other
  /\ dict_lookup "metadata" invoice_payment = dict_lookup "metadata" other
  /\ make_decision repr_float_whole sample_engine (VStr "0xab12") (VInt 45)
       (VDict invoice_payment)
     = make_decision repr_float_whole sample_engine (VStr "0xab12") (VInt 45)
         (VDict other).
Proof.
  intros other.
  assert (H1 : dict_lookup "timestamp" invoice_payment
               = dict_lookup "timestamp" other) by reflexivity.
  assert (H2 : dict_lookup "amount" invoice_payment
               = dict_lookup "amount" other) by reflexivity.
  assert (H3 : dict_lookup "metadata" invoice_payment
               = dict_lookup "metadata" other) by reflexivity.
  split; [ exact H1 | ]. split; [ exact H2 | ]. split; [ exact H3 | ].
  exact (make_decision_reads_three_keys repr_float_whole sample_engine
           (VStr "0xab12") (VInt 45) invoice_payment other H1 H2 H3).
Defined.

Lemma plain_metadata_flagged_iff_witness :
  let entries : list (string * string) :=
    [("purpose", "invoice payment"); ("invoice_id", "12345")] in
  number_of (amount_of invoice_payment) = Some (Finite 100)
  /\ ~ above (Finite 100) 100000
  /\ metadata_of invoice_payment = flat_metadata entries
  /\ (forall k v, In (k, v) entries ->
                  all_plain k = true /\ all_plain v = true)
  /\ (_check_critical_patterns repr_float_whole (VDict invoice_payment)
      = Ok true
      <-> exists k v keyword,
           In (k, v) entries
           /\ In keyword suspicious_keywords
           /\ (occurs_in keyword (lower k) \/ occurs_in keyword (lower v))).
Proof.
  intros entries.
  assert (H1 : number_of (amount_of invoice_payment) = Some (Finite 100))
    by reflexivity.
  assert (H2 : ~ above (Finite 100) 100000)
    by (intros H; vm_compute in H; discriminate H).
  assert (H3 : metadata_of invoice_payment = flat_metadata entries)
    by reflexivity.
  assert (H4 : forall k v, In (k, v) entries ->
                           all_plain k = true /\ all_plain v = true).
  { intros k v [H | [H | []]]; injection H as <- <-; split; reflexivity. }
  split; [ exact H1 | ]. split; [ exact H2 | ]. split; [ exact H3 | ].
  split; [ exact H4 | ].
  exact (plain_metadata_flagged_iff repr_float_whole invoice_payment entries
           (Finite 100) H1 H2 H3 H4).
Defined.

Lemma pending_queue_holds_complete_records_witness :
  Forall complete_record (pending_decisions sample_engine)
  /\ Forall complete_record
       (pending_decisions
          (snd (make_decision repr_float_whole sample_engine (VStr "0xab12")
                  (VInt 45) (VDict invoice_payment)))).
Proof.
  assert (H1 : Forall complete_record (pending_decisions sample_engine))
    by constructor.
  split; [ exact H1 | ].
  exact (proj1 (pending_queue_holds_complete_records repr_float_whole
                  sample_engine (VStr "0xab12") (VInt 45)
                  (VDict invoice_payment) H1)).
Defined.

(** A run with one failing request: three records are returned, two are
    delivered by the drain. *)
Example run_with_error_then_drain :
  let run :=
    decide_all repr_float_whole sample_engine
      [(VStr "0x01", VInt 10, VDict invoice_payment);
       (VStr "0x02", VStr "high", VDict invoice_payment);
       (VStr "0x03", VInt 90, VDict invoice_payment)] in
  map action_of (fst run)
  = [Some (VStr "approve"); Some (VStr "flag"); Some (VStr "flag")]
  /\ map (dict_lookup "payment_id") (fst (get_pending_decisions (snd run)))
     = [Some (VStr "0x01"); Some (VStr "0x03")].
Proof. split; reflexivity. Qed.
